(** * CareerPilot-AI: the entitlement and usage-metering core

    A shallow embedding of the Subscription and User models
    (models/Subscription.ts, models/User.ts) and of SubscriptionService
    (services/subscriptionService.ts), followed by the properties of the
    entitlement core that hold, or fail, on that code.

    Conventions of the embedding:
    - a limit is a JavaScript number, modelled as [Z] (-1 is the unlimited
      sentinel); a usage counter starts at the schema default 0 and is only
      ever incremented by one or set back to 0, so it is modelled as [N],
      with the rounding of [+= 1] past 2^53 ([Js.plusOne]);
    - an object indexed by a run-time string ([features[featureName]],
      [freeLimits[featureName]]) is an association list of its own
      properties on top of [Object.prototype];
    - the Subscription collection is the list of its documents, queries
      return the first match; the User collection is a finite map from
      [_id] to document;
    - an [async] service method is a function from the database to a result
      and the database it leaves behind; a [throw] is the [Err] result;
    - [new Date()] is the [now] argument; logger calls are left out. *)

From Stdlib Require Import ZArith NArith Bool List Lia.
From stdpp Require Import base option strings list gmap.

Import ListNotations.
Local Open Scope string_scope.

(** ** Results of fallible code *)

Inductive result (E A : Type) : Type :=
| Ok (a : A)
| Err (e : E).
Arguments Ok {E A} a.
Arguments Err {E A} e.

(** ** JavaScript objects read through a computed key *)

Module Js.

(** What [obj[key]] finds on [Object.prototype] when [obj] has no own
    property [key]: a method, or, for [__proto__], the prototype object. *)
Inductive ProtoMember := PFunction | PObject.

Definition objectPrototype (key : string) : option ProtoMember :=
  if String.eqb key "__proto__" then Some PObject
  else if existsb (String.eqb key)
       ["constructor"; "hasOwnProperty"; "isPrototypeOf";
        "propertyIsEnumerable"; "toLocaleString"; "toString"; "valueOf";
        "__defineGetter__"; "__defineSetter__";
        "__lookupGetter__"; "__lookupSetter__"]
  then Some PFunction
  else None.

Inductive Prop_ (A : Type) : Type :=
| Own (a : A)
| Inherited (m : ProtoMember)
| Undefined.
Arguments Own {A} a.
Arguments Inherited {A} m.
Arguments Undefined {A}.

Fixpoint ownProperty {A} (own : list (string * A)) (key : string) : option A :=
  match own with
  | [] => None
  | (k, v) :: rest => if String.eqb key k then Some v else ownProperty rest key
  end.

(** [obj[key]] *)
Definition get {A} (own : list (string * A)) (key : string) : Prop_ A :=
  match ownProperty own key with
  | Some v => Own v
  | None =>
      match objectPrototype key with
      | Some m => Inherited m
      | None => Undefined
      end
  end.

(** The value of an expression whose static type is [number] but which
    can hold a member of [Object.prototype] at run time. *)
Inductive Num :=
| Number (z : Z)
| NotANumber (m : ProtoMember).

(** [x || 0] for [x = obj[key]] over numeric own properties: [undefined]
    and [0] are falsy, every object and function is truthy. *)
Definition orZero (p : Prop_ Z) : Num :=
  match p with
  | Own z => Number z
  | Inherited m => NotANumber m
  | Undefined => Number 0
  end.

(** [used < limit] and [used >= limit] with a number on the left: an
    object or function on the right converts to NaN, and every comparison
    with NaN is false. *)
Definition lt (used : Z) (limit : Num) : bool :=
  match limit with
  | Number l => (used <? l)%Z
  | NotANumber _ => false
  end.

Definition ge (used : Z) (limit : Num) : bool :=
  match limit with
  | Number l => (l <=? used)%Z
  | NotANumber _ => false
  end.

(** The largest [n] for which [n] and [n + 1] are both held exactly. *)
Definition MAX_SAFE_INTEGER : N := 2 ^ 53 - 1.

(** The number nearest to the natural number [n]. A number is a binary64
    float: below 2^53 every natural number is one, and a larger one is
    rounded to 53 leading bits, a tie going to the even neighbour. (The
    overflow to [Infinity], past 2^1024, is out of reach of a counter.) *)
Definition round (n : N) : N :=
  if (n <? 2 ^ 53)%N then n
  else
    let e := (N.log2 n - 52)%N in
    let q := N.shiftr n e in
    let r := N.land n (N.ones e) in
    let half := N.shiftl 1 (e - 1) in
    let up := if (r <? half)%N then false
              else if (half <? r)%N then true
              else N.odd q in
    N.shiftl (if up then q + 1 else q)%N e.

(** [n += 1] on a number that holds the natural number [n]: exact up to
    [MAX_SAFE_INTEGER]; at 2^53 the sum is rounded back to 2^53, so a
    counter that is only ever incremented stops there. *)
Definition plusOne (n : N) : N := round (n + 1).

End Js.

(** ** Dates

    The calendar fields of a [Date] in the server's time zone, as read by
    [getFullYear], [getMonth] (0 to 11) and [getDate], and the time of day
    in milliseconds. *)

Record Date := mkDate {
  getFullYear : Z;
  getMonth : Z;
  getDate : Z;
  msOfDay : Z;
}.

(** ** models/Subscription.ts *)

Inductive Plan := plan_free | plan_pro | plan_enterprise.
Inductive Status :=
  st_active | st_cancelled | st_expired | st_pending | st_trial.
Inductive BillingCycle := monthly | yearly.
Inductive PaymentProvider := stripe | razorpay | manual.
Inductive RenewalStatus := success | failed.

Definition Plan_eqb (p q : Plan) : bool :=
  match p, q with
  | plan_free, plan_free | plan_pro, plan_pro
  | plan_enterprise, plan_enterprise => true
  | _, _ => false
  end.

Definition Status_eqb (p q : Status) : bool :=
  match p, q with
  | st_active, st_active | st_cancelled, st_cancelled
  | st_expired, st_expired | st_pending, st_pending
  | st_trial, st_trial => true
  | _, _ => false
  end.

(** The three shapes of [features.*] objects, and the two plain flags. *)
Record MonthlyFeature := mkMonthly {
  m_enabled : bool;
  monthlyLimit : Z;
  m_used : N;
}.

Record WeeklyFeature := mkWeekly {
  w_enabled : bool;
  weeklyLimit : Z;
  w_used : N;
}.

Record RoadmapsFeature := mkRoadmaps {
  r_enabled : bool;
  maxActive : Z;
}.

Record ApiAccessFeature := mkApiAccess {
  a_enabled : bool;
  rateLimit : Z;
}.

Record Features := mkFeatures {
  resumeAnalysis : MonthlyFeature;
  interviews : MonthlyFeature;
  jobMatches : WeeklyFeature;
  roadmaps : RoadmapsFeature;
  linkedInReview : MonthlyFeature;
  apiAccess : ApiAccessFeature;
  prioritySupport : bool;
  customBranding : bool;
}.

Record PaymentDetails := mkPaymentDetails {
  stripeCustomerId : option string;
  stripeSubscriptionId : option string;
  stripePriceId : option string;
  razorpaySubscriptionId : option string;
  razorpayCustomerId : option string;
}.

Record Cancellation := mkCancellation {
  cancelledAt : Date;
  reason : option string;
  feedback : option string;
}.

Record Renewal := mkRenewal {
  r_date : Date;
  r_amount : Z;
  r_status : RenewalStatus;
  r_transactionId : option string;
}.

Record ISubscription := mkSubscription {
  _id : string;
  userId : string;
  plan : Plan;
  status : Status;
  billingCycle : BillingCycle;
  price : Z;
  currency : string;
  startDate : Date;
  endDate : Date;
  trialEndsAt : option Date;
  paymentProvider : PaymentProvider;
  paymentDetails : PaymentDetails;
  features : Features;
  cancellation : option Cancellation;
  renewals : list Renewal;
}.

(** Field assignments on a document. *)
Definition set_plan (p : Plan) (s : ISubscription) : ISubscription :=
  mkSubscription (_id s) (userId s) p (status s) (billingCycle s) (price s)
    (currency s) (startDate s) (endDate s) (trialEndsAt s) (paymentProvider s)
    (paymentDetails s) (features s) (cancellation s) (renewals s).

Definition set_status (st : Status) (s : ISubscription) : ISubscription :=
  mkSubscription (_id s) (userId s) (plan s) st (billingCycle s) (price s)
    (currency s) (startDate s) (endDate s) (trialEndsAt s) (paymentProvider s)
    (paymentDetails s) (features s) (cancellation s) (renewals s).

Definition set_paymentDetails (pd : PaymentDetails) (s : ISubscription)
  : ISubscription :=
  mkSubscription (_id s) (userId s) (plan s) (status s) (billingCycle s)
    (price s) (currency s) (startDate s) (endDate s) (trialEndsAt s)
    (paymentProvider s) pd (features s) (cancellation s) (renewals s).

Definition set_features (f : Features) (s : ISubscription) : ISubscription :=
  mkSubscription (_id s) (userId s) (plan s) (status s) (billingCycle s)
    (price s) (currency s) (startDate s) (endDate s) (trialEndsAt s)
    (paymentProvider s) (paymentDetails s) f (cancellation s) (renewals s).

Definition set_cancellation (c : option Cancellation) (s : ISubscription)
  : ISubscription :=
  mkSubscription (_id s) (userId s) (plan s) (status s) (billingCycle s)
    (price s) (currency s) (startDate s) (endDate s) (trialEndsAt s)
    (paymentProvider s) (paymentDetails s) (features s) c (renewals s).

Definition set_stripeSubscriptionId (r : option string) (pd : PaymentDetails)
  : PaymentDetails :=
  mkPaymentDetails (stripeCustomerId pd) r (stripePriceId pd)
    (razorpaySubscriptionId pd) (razorpayCustomerId pd).

Module Subscription.

(** The table of the pre-save middleware. *)
Definition planFeatures (p : Plan) : Features :=
  match p with
  | plan_free =>
      mkFeatures (mkMonthly true 3 0) (mkMonthly true 1 0)
        (mkWeekly false 0 0) (mkRoadmaps true 1) (mkMonthly true 1 0)
        (mkApiAccess false 100) false false
  | plan_pro =>
      mkFeatures (mkMonthly true (-1) 0) (mkMonthly true (-1) 0)
        (mkWeekly true 10 0) (mkRoadmaps true 3) (mkMonthly true (-1) 0)
        (mkApiAccess true 1000) true false
  | plan_enterprise =>
      mkFeatures (mkMonthly true (-1) 0) (mkMonthly true (-1) 0)
        (mkWeekly true (-1) 0) (mkRoadmaps true 10) (mkMonthly true (-1) 0)
        (mkApiAccess true 10000) true true
  end.

(** A document in memory: its fields, and whether [plan] is among the
    modified paths. Mongoose marks a path modified when it is assigned a
    value different from the one it holds; a document built with
    [new Subscription({plan, ...})] has [plan] modified, one returned by a
    query has not. *)
Record Doc := mkDoc {
  this : ISubscription;
  isModified_plan : bool;
}.

Definition loaded (s : ISubscription) : Doc := mkDoc s false.
Definition created (s : ISubscription) : Doc := mkDoc s true.

(** [doc.plan = p] *)
Definition assignPlan (p : Plan) (d : Doc) : Doc :=
  mkDoc (set_plan p (this d))
        (isModified_plan d || negb (Plan_eqb p (plan (this d)))).

(** [SubscriptionSchema.pre('save')] *)
Definition preSave (d : Doc) : ISubscription :=
  if isModified_plan d
  then set_features (planFeatures (plan (this d))) (this d)
  else this d.

(** What the middleware makes of [sub.plan = p; await sub.save()] on a
    document returned by a query. *)
Definition swapPlan (p : Plan) (s : ISubscription) : ISubscription :=
  preSave (assignPlan p (loaded s)).

(** A value of [this.features[featureName]]. *)
Inductive FeatureValue :=
| VMonthly (f : MonthlyFeature)
| VWeekly (f : WeeklyFeature)
| VRoadmaps (f : RoadmapsFeature)
| VApiAccess (f : ApiAccessFeature)
| VBool (b : bool).

Definition ownFeatures (f : Features) : list (string * FeatureValue) :=
  [ ("resumeAnalysis", VMonthly (resumeAnalysis f));
    ("interviews", VMonthly (interviews f));
    ("jobMatches", VWeekly (jobMatches f));
    ("roadmaps", VRoadmaps (roadmaps f));
    ("linkedInReview", VMonthly (linkedInReview f));
    ("apiAccess", VApiAccess (apiAccess f));
    ("prioritySupport", VBool (prioritySupport f));
    ("customBranding", VBool (customBranding f)) ].

(** The own keys of every [features] object. *)
Definition featureNames : list string :=
  [ "resumeAnalysis"; "interviews"; "jobMatches"; "roadmaps";
    "linkedInReview"; "apiAccess"; "prioritySupport"; "customBranding" ].

(** [this.features[featureName as keyof typeof this.features]]. The
    members that the document itself brings into the chain of [features]
    are not listed: none of them has a field [enabled], [monthlyLimit] or
    [used], so that every method answers under such a name as it does
    under an absent name or under the name of a member of
    [Object.prototype], and only which of its two messages
    [checkFeatureAccess] gives with the denial depends on the member. *)
Definition feature (f : Features) (featureName : string)
  : Js.Prop_ FeatureValue :=
  Js.get (ownFeatures f) featureName.

(** [typeof feature === 'object' && feature !== null] *)
Definition isObject (v : Js.Prop_ FeatureValue) : bool :=
  match v with
  | Js.Own (VBool _) => false
  | Js.Own _ => true
  | Js.Inherited Js.PObject => true
  | Js.Inherited Js.PFunction => false
  | Js.Undefined => false
  end.

(** The [enabled] field of an object that has one: ['enabled' in feature]
    holds exactly when the result is [Some]. *)
Definition enabledOf (v : Js.Prop_ FeatureValue) : option bool :=
  match v with
  | Js.Own (VMonthly f) => Some (m_enabled f)
  | Js.Own (VWeekly f) => Some (w_enabled f)
  | Js.Own (VRoadmaps f) => Some (r_enabled f)
  | Js.Own (VApiAccess f) => Some (a_enabled f)
  | _ => None
  end.

(** Likewise for [monthlyLimit] and [used]. *)
Definition monthlyLimitOf (v : Js.Prop_ FeatureValue) : option Z :=
  match v with
  | Js.Own (VMonthly f) => Some (monthlyLimit f)
  | _ => None
  end.

Definition usedOf (v : Js.Prop_ FeatureValue) : option N :=
  match v with
  | Js.Own (VMonthly f) => Some (m_used f)
  | Js.Own (VWeekly f) => Some (w_used f)
  | _ => None
  end.

(** [isFeatureAvailable] *)
Definition isFeatureAvailable (s : ISubscription) (featureName : string)
  : bool :=
  let feature := feature (features s) featureName in
  if isObject feature
  then match enabledOf feature with Some e => e | None => false end
  else false.

(** The comparison of [checkUsageLimit]:
    [limit === -1 || used < limit]. *)
Definition isWithinLimit (limit used : Z) : bool :=
  (limit =? -1)%Z || (used <? limit)%Z.

(** [checkUsageLimit] *)
Definition checkUsageLimit (s : ISubscription) (featureName : string)
  : bool :=
  let feature := feature (features s) featureName in
  match isObject feature, monthlyLimitOf feature, usedOf feature with
  | true, Some limit, Some used => isWithinLimit limit (Z.of_N used)
  | _, _, _ => true
  end.

(** [feature.used += 1] *)
Definition bumpMonthly (f : MonthlyFeature) : MonthlyFeature :=
  mkMonthly (m_enabled f) (monthlyLimit f) (Js.plusOne (m_used f)).

Definition bumpWeekly (f : WeeklyFeature) : WeeklyFeature :=
  mkWeekly (w_enabled f) (weeklyLimit f) (Js.plusOne (w_used f)).

(** The [features] after [feature.used += 1] on the object found under
    [featureName], for the four own properties that are objects with a
    [used] field; [None] when the test
    [typeof feature === 'object' && feature !== null && 'used' in feature]
    fails. *)
Definition bumpUsed (f : Features) (featureName : string) : option Features :=
  if String.eqb featureName "resumeAnalysis" then
    Some (mkFeatures (bumpMonthly (resumeAnalysis f)) (interviews f)
            (jobMatches f) (roadmaps f) (linkedInReview f) (apiAccess f)
            (prioritySupport f) (customBranding f))
  else if String.eqb featureName "interviews" then
    Some (mkFeatures (resumeAnalysis f) (bumpMonthly (interviews f))
            (jobMatches f) (roadmaps f) (linkedInReview f) (apiAccess f)
            (prioritySupport f) (customBranding f))
  else if String.eqb featureName "jobMatches" then
    Some (mkFeatures (resumeAnalysis f) (interviews f)
            (bumpWeekly (jobMatches f)) (roadmaps f) (linkedInReview f)
            (apiAccess f) (prioritySupport f) (customBranding f))
  else if String.eqb featureName "linkedInReview" then
    Some (mkFeatures (resumeAnalysis f) (interviews f) (jobMatches f)
            (roadmaps f) (bumpMonthly (linkedInReview f)) (apiAccess f)
            (prioritySupport f) (customBranding f))
  else None.

(** The collection: [findOne], [findById] and the write of [save]. *)
Definition findOne (q : ISubscription -> bool) (col : list ISubscription)
  : option ISubscription :=
  List.find q col.

Definition findById (id : string) (col : list ISubscription)
  : option ISubscription :=
  findOne (fun s => String.eqb (_id s) id) col.

Fixpoint write (s : ISubscription) (col : list ISubscription)
  : list ISubscription :=
  match col with
  | [] => [s]
  | d :: rest =>
      if String.eqb (_id d) (_id s) then s :: rest else d :: write s rest
  end.

(** [doc.save()]: the pre-save middleware, then the write. *)
Definition save (d : Doc) (col : list ISubscription)
  : ISubscription * list ISubscription :=
  let s := preSave d in (s, write s col).

(** [incrementUsage], on a document returned by a query: the collection
    after [feature.used += 1; await this.save()], or as it was when the
    feature has no [used]. *)
Definition incrementUsage (s : ISubscription) (featureName : string)
    (col : list ISubscription) : list ISubscription :=
  match bumpUsed (features s) featureName with
  | Some f => snd (save (loaded (set_features f s)) col)
  | None => col
  end.

(** [resetMonthlyUsage] and [resetWeeklyUsage], on a document returned by
    a query: the saved document and the collection after the save. *)
Definition zeroMonthly (f : MonthlyFeature) : MonthlyFeature :=
  mkMonthly (m_enabled f) (monthlyLimit f) 0.

Definition zeroWeekly (f : WeeklyFeature) : WeeklyFeature :=
  mkWeekly (w_enabled f) (weeklyLimit f) 0.

Definition resetMonthlyUsage (s : ISubscription) (col : list ISubscription)
  : ISubscription * list ISubscription :=
  let f := features s in
  save (loaded
          (set_features
             (mkFeatures (zeroMonthly (resumeAnalysis f))
                (zeroMonthly (interviews f)) (jobMatches f) (roadmaps f)
                (zeroMonthly (linkedInReview f)) (apiAccess f)
                (prioritySupport f) (customBranding f)) s)) col.

Definition resetWeeklyUsage (s : ISubscription) (col : list ISubscription)
  : ISubscription * list ISubscription :=
  let f := features s in
  save (loaded
          (set_features
             (mkFeatures (resumeAnalysis f) (interviews f)
                (zeroWeekly (jobMatches f)) (roadmaps f) (linkedInReview f)
                (apiAccess f) (prioritySupport f) (customBranding f)) s)) col.

(** The defaults that the schema gives [features]. *)
Definition schemaDefaults : Features :=
  mkFeatures (mkMonthly true 3 0) (mkMonthly true 1 0) (mkWeekly false 0 0)
    (mkRoadmaps true 1) (mkMonthly true 1 0) (mkApiAccess false 100)
    false false.

(** [doc.save()] of a document built with [new Subscription(...)]: the
    pre-save middleware, then the insertion. The schema declares [userId]
    unique, and [_id] is unique in every collection: the insertion is
    rejected (duplicate key) when a stored document has either. *)
Definition insert (d : Doc) (col : list ISubscription)
  : option (ISubscription * list ISubscription) :=
  let s := preSave d in
  if existsb (fun x => String.eqb (userId x) (userId s)
                       || String.eqb (_id x) (_id s)) col
  then None
  else Some (s, (col ++ [s])%list).

End Subscription.

(** ** models/User.ts

    The profile fields (email, password, names, skills, preferences) are
    never read by the entitlement code and are left out of the record. *)

Inductive Role := role_free | role_pro | role_admin.
Inductive UserSubscriptionStatus :=
  us_active | us_cancelled | us_expired | us_none.

Record UserSubscription := mkUserSubscription {
  us_status : UserSubscriptionStatus;
  us_plan : Plan;
  us_startDate : option Date;
  us_endDate : option Date;
  us_stripeCustomerId : option string;
  us_stripeSubscriptionId : option string;
}.

Record Usage := mkUsage {
  resumeAnalysisCount : N;
  interviewSessionsCount : N;
  lastResetDate : Date;
}.

Record IUser := mkUser {
  role : Role;
  subscription : UserSubscription;
  usage : Usage;
}.

Module User.

(** [hasProAccess] *)
Definition hasProAccess (u : IUser) : bool :=
  match role u with
  | role_pro | role_admin => true
  | role_free =>
      match us_status (subscription u), us_plan (subscription u) with
      | us_active, plan_pro => true
      | _, _ => false
      end
  end.

Definition monthDiff (now lastReset : Date) : Z :=
  (getMonth now - getMonth lastReset
   + (getFullYear now - getFullYear lastReset) * 12)%Z.

(** [canUseResumeAnalysis]: the answer, and the document as the call
    leaves it in memory (the caller saves it later). *)
Definition canUseResumeAnalysis (now : Date) (u : IUser) : bool * IUser :=
  if hasProAccess u then (true, u)
  else
    let lastReset := lastResetDate (usage u) in
    let u' :=
      if (0 <? monthDiff now lastReset)%Z
      then mkUser (role u) (subscription u)
             (mkUsage 0 (interviewSessionsCount (usage u)) now)
      else u in
    ((resumeAnalysisCount (usage u') <? 3)%N, u').

(** [canUseInterview] *)
Definition canUseInterview (u : IUser) : bool :=
  if hasProAccess u then true
  else (interviewSessionsCount (usage u) <? 1)%N.

(** The numeric own properties of [user.usage]. The third own property,
    [lastResetDate], and the members of [Object.prototype] are never
    reached by a key of the form [`${featureName}Count`]: see
    [usageField_reaches_counters_only]. *)
Definition ownCounters (g : Usage) : list (string * N) :=
  [ ("resumeAnalysisCount", resumeAnalysisCount g);
    ("interviewSessionsCount", interviewSessionsCount g) ].

(** [(user.usage as any)[usageField] += 1], for a [usageField] of the form
    [`${featureName}Count`]; [None] when [usageField in user.usage]
    fails. *)
Definition bumpCounter (g : Usage) (usageField : string) : option Usage :=
  if String.eqb usageField "resumeAnalysisCount" then
    Some (mkUsage (Js.plusOne (resumeAnalysisCount g))
            (interviewSessionsCount g) (lastResetDate g))
  else if String.eqb usageField "interviewSessionsCount" then
    Some (mkUsage (resumeAnalysisCount g)
            (Js.plusOne (interviewSessionsCount g)) (lastResetDate g))
  else None.

End User.

(** ** utils/apiResponse.ts: [ApiError] and its factories *)

Record ApiError := mkApiError {
  message : string;
  statusCode : Z;
}.

Module ApiError.
Definition badRequest (m : string) := mkApiError m 400.
Definition unauthorized (m : string) := mkApiError m 401.
Definition forbidden (m : string) := mkApiError m 403.
Definition notFound (m : string) := mkApiError m 404.
Definition conflict (m : string) := mkApiError m 409.
Definition tooManyRequests (m : string) := mkApiError m 429.
Definition internal (m : string) := mkApiError m 500.
End ApiError.

(** What a service method can throw: an [ApiError] of its own, or whatever
    the payment provider's client threw. *)
Inductive Exception :=
| Api (e : ApiError)
| Provider (reason : string).

(** ** Calendar arithmetic of [Date]

    [setMonth] and [setFullYear] work in local time. They rebuild a local
    time from the new year and month, the old day of the month and the old
    time of day: a month past December carries into the year, and a day past
    the end of the month carries into the month after it. The [Date] then
    holds the instant that the server's time zone gives this local time, and
    the getters read that instant back in the same zone. *)

Module JsDate.

Definition isLeapYear (y : Z) : bool :=
  ((y mod 4 =? 0) && negb (y mod 100 =? 0) || (y mod 400 =? 0))%Z.

Definition daysInMonth (y m : Z) : Z :=
  if (m =? 1)%Z then (if isLeapYear y then 29 else 28)%Z
  else if ((m =? 3) || (m =? 5) || (m =? 8) || (m =? 10))%Z then 30%Z
  else 31%Z.

(** The fields that [getMonth] and [getDate] can return. *)
Definition valid (t : Date) : Prop :=
  (0 <= getMonth t <= 11)%Z
  /\ (1 <= getDate t <= daysInMonth (getFullYear t) (getMonth t))%Z.

(** The date of year [y], month [m] and day [d], for [m] from 0 and [d]
    from 1 to 31: at most one month is carried, for no month is shorter
    than 28 days. *)
Definition make (y m d ms : Z) : Date :=
  let y1 := (y + m / 12)%Z in
  let m1 := (m mod 12)%Z in
  if (d <=? daysInMonth y1 m1)%Z then mkDate y1 m1 d ms
  else
    let m2 := (m1 + 1)%Z in
    mkDate (y1 + m2 / 12) (m2 mod 12) (d - daysInMonth y1 m1) ms.

(** The local times that [setMonth(m)] and [setFullYear(y)] ask for. *)
Definition monthSet (m : Z) (t : Date) : Date :=
  make (getFullYear t) m (getDate t) (msOfDay t).

Definition yearSet (y : Z) (t : Date) : Date :=
  make y (getMonth t) (getDate t) (msOfDay t).

Section Zone.

(** The server's time zone, as a setter meets it: [zone t] is the local
    reading of the instant stored for the local time [t], that is
    [LocalTime(UTC(t))]. A local time that exists in the zone is read back
    as it is. One that a forward transition skips (the hour lost when
    daylight saving starts) is read back later by the length of the gap.
    Instants are taken within the range that a [Date] can hold. *)
Variable zone : Date -> Date.

Definition setMonth (m : Z) (t : Date) : Date := zone (monthSet m t).

Definition setFullYear (y : Z) (t : Date) : Date := zone (yearSet y t).

End Zone.

End JsDate.

(** ** services/subscriptionService.ts *)

Record Db := mkDb {
  subscriptions : list ISubscription;
  users : gmap string IUser;
}.

(** The answer of [checkFeatureAccess]; an absent field is [None]. *)
Record Access := mkAccess {
  hasAccess : bool;
  limit : option Js.Num;
  used : option N;
  access_message : option string;
}.

(** The parts of a provider event that [handleWebhookEvent] reads:
    [event.type], [event.data.object.metadata.subscriptionId],
    [event.data.object.subscription] and [event.data.object.id]. *)
Record WebhookEvent := mkEvent {
  ev_type : string;
  ev_metadata_subscriptionId : string;
  ev_subscription : string;
  ev_id : string;
}.

Module SubscriptionService.

Definition freeLimits : list (string * Z) :=
  [ ("resumeAnalysis", 3%Z); ("interviews", 1%Z); ("jobMatches", 0%Z);
    ("linkedInReview", 1%Z); ("roadmaps", 1%Z) ].

(** The queries [{ userId }] and [{ userId, status: 'active' }]. *)
Definition ofUser (uid : string) (s : ISubscription) : bool :=
  String.eqb (userId s) uid.

Definition activeOf (uid : string) (s : ISubscription) : bool :=
  String.eqb (userId s) uid && Status_eqb (status s) st_active.

(** [activateSubscription] *)
Definition activateSubscription (db : Db)
    (subscriptionId stripeSubscriptionId : string)
  : result Exception ISubscription * Db :=
  match Subscription.findById subscriptionId (subscriptions db) with
  | None => (Err (Api (ApiError.notFound "Subscription not found")), db)
  | Some sub =>
      let doc := Subscription.loaded
        (set_paymentDetails
           (set_stripeSubscriptionId (Some stripeSubscriptionId)
              (paymentDetails sub))
           (set_status st_active sub)) in
      let '(sub, col) := Subscription.save doc (subscriptions db) in
      let users' :=
        match users db !! userId sub with
        | Some user =>
            <[ userId sub :=
                 mkUser role_pro
                   (mkUserSubscription us_active (plan sub)
                      (Some (startDate sub))
                      (Some (endDate sub))
                      (us_stripeCustomerId (subscription user))
                      (Some stripeSubscriptionId))
                   (usage user) ]> (users db)
        | None => users db
        end in
      (Ok sub, mkDb col users')
  end.

Section Provider.

(** [cancelStripeSubscription] of config/stripe.ts: the call to the
    provider either returns or throws. *)
Variable cancelStripeSubscription : string -> result Exception unit.

(** [if (subscription.paymentDetails.stripeSubscriptionId)]: an absent
    id and the empty string are falsy. *)
Definition cancelAtProvider (pd : PaymentDetails) : result Exception unit :=
  match stripeSubscriptionId pd with
  | None | Some "" => Ok tt
  | Some id => cancelStripeSubscription id
  end.

(** [cancelSubscription] *)
Definition cancelSubscription (now : Date) (db : Db) (uid : string)
    (reason feedback : option string)
  : result Exception ISubscription * Db :=
  match Subscription.findOne (activeOf uid) (subscriptions db) with
  | None => (Err (Api (ApiError.notFound "No active subscription found")), db)
  | Some sub =>
      match cancelAtProvider (paymentDetails sub) with
      | Err e => (Err e, db)
      | Ok _ =>
          let doc := Subscription.loaded
            (set_cancellation (Some (mkCancellation now reason feedback))
               (set_status st_cancelled sub)) in
          let '(sub, col) :=
            Subscription.save doc (subscriptions db) in
          let users' :=
            match users db !! uid with
            | Some user =>
                <[ uid :=
                     mkUser role_free
                       (mkUserSubscription us_cancelled
                          (us_plan (subscription user))
                          (us_startDate (subscription user))
                          (us_endDate (subscription user))
                          (us_stripeCustomerId (subscription user))
                          (us_stripeSubscriptionId (subscription user)))
                       (usage user) ]> (users db)
            | None => users db
            end in
          (Ok sub, mkDb col users')
      end
  end.

End Provider.

(** The [usage] part of the answer of [getSubscriptionDetails]:
    [used] and [limit] of the four counted features. *)
Record UsageReport := mkUsageReport {
  rep_resumeAnalysis : N * Z;
  rep_interviews : N * Z;
  rep_jobMatches : N * Z;
  rep_linkedInReview : N * Z;
}.

Definition getSubscriptionDetails (db : Db) (uid : string)
  : option ISubscription * UsageReport :=
  match Subscription.findOne (ofUser uid) (subscriptions db) with
  | None =>
      (None, mkUsageReport (0%N, 3%Z) (0%N, 1%Z) (0%N, 0%Z) (0%N, 1%Z))
  | Some sub =>
      let f := features sub in
      (Some sub,
       mkUsageReport
         (m_used (resumeAnalysis f), monthlyLimit (resumeAnalysis f))
         (m_used (interviews f), monthlyLimit (interviews f))
         (w_used (jobMatches f), weeklyLimit (jobMatches f))
         (m_used (linkedInReview f), monthlyLimit (linkedInReview f)))
  end.

(** [user?.usage?.[`${featureName}Count`] || 0] *)
Definition freeUsed (user : option IUser) (featureName : string) : N :=
  match user with
  | Some u =>
      match Js.ownProperty (User.ownCounters (usage u))
              (featureName ++ "Count") with
      | Some n => n
      | None => 0%N
      end
  | None => 0%N
  end.

(** [checkFeatureAccess] *)
Definition checkFeatureAccess (db : Db) (uid featureName : string)
  : result Exception Access :=
  match Subscription.findOne (ofUser uid) (subscriptions db) with
  | None =>
      let user := users db !! uid in
      let used := freeUsed user featureName in
      let limit := Js.orZero (Js.get freeLimits featureName) in
      Ok (mkAccess (Js.lt (Z.of_N used) limit) (Some limit) (Some used)
            (if Js.ge (Z.of_N used) limit
             then Some "Free tier limit reached. Upgrade to Pro."
             else None))
  | Some sub =>
      let feature := Subscription.feature (features sub) featureName in
      if negb (Subscription.isObject feature) then
        Ok (mkAccess false None None (Some "Feature not available"))
      else
        match Subscription.enabledOf feature with
        | None | Some false =>
            Ok (mkAccess false None None
                  (Some "Feature not enabled for your plan"))
        | Some true =>
            let limit :=
              match Subscription.monthlyLimitOf feature with
              | Some l => l
              | None => (-1)%Z
              end in
            let used :=
              match Subscription.usedOf feature with
              | Some n => n
              | None => 0%N
              end in
            if (limit =? -1)%Z then
              Ok (mkAccess true (Some (Js.Number (-1))) (Some used) None)
            else
              Ok (mkAccess (Z.of_N used <? limit)%Z (Some (Js.Number limit))
                    (Some used)
                    (if (limit <=? Z.of_N used)%Z
                     then Some "Monthly limit reached. Upgrade your plan."
                     else None))
        end
  end.

(** [incrementFeatureUsage] *)
Definition incrementFeatureUsage (db : Db) (uid featureName : string)
  : result Exception unit * Db :=
  match Subscription.findOne (ofUser uid) (subscriptions db) with
  | Some sub =>
      (Ok tt,
       mkDb (Subscription.incrementUsage sub featureName (subscriptions db))
            (users db))
  | None =>
      match users db !! uid with
      | Some user =>
          match User.bumpCounter (usage user) (featureName ++ "Count") with
          | Some g =>
              (Ok tt,
               mkDb (subscriptions db)
                    (<[ uid := mkUser (role user) (subscription user) g ]>
                       (users db)))
          | None => (Ok tt, db)
          end
      | None => (Ok tt, db)
      end
  end.

(** [handleWebhookEvent] *)
Definition handleWebhookEvent (db : Db) (event : WebhookEvent)
  : result Exception unit * Db :=
  if String.eqb (ev_type event) "checkout.session.completed" then
    match activateSubscription db (ev_metadata_subscriptionId event)
            (ev_subscription event) with
    | (Ok _, db') => (Ok tt, db')
    | (Err e, db') => (Err e, db')
    end
  else if String.eqb (ev_type event) "invoice.payment_succeeded" then
    (Ok tt, db)
  else if String.eqb (ev_type event) "invoice.payment_failed" then
    (Ok tt, db)
  else if String.eqb (ev_type event) "customer.subscription.deleted" then
    (Ok tt, db)
  else
    (Ok tt, db).

(** [getSubscriptionByUserId] *)
Definition getSubscriptionByUserId (db : Db) (uid : string)
  : option ISubscription :=
  Subscription.findOne (ofUser uid) (subscriptions db).

(** [calculateEndDate], with [new Date()] as [now], in the server's time
    zone. *)
Definition calculateEndDate (zone : Date -> Date) (now : Date)
    (billingCycle : BillingCycle) : Date :=
  match billingCycle with
  | yearly => JsDate.setFullYear zone (getFullYear now + 1) now
  | monthly => JsDate.setMonth zone (getMonth now + 1) now
  end.

(** The plans that [createSubscription] accepts, and its price table. *)
Inductive PaidPlan := paid_pro | paid_enterprise.

Definition planOf (p : PaidPlan) : Plan :=
  match p with
  | paid_pro => plan_pro
  | paid_enterprise => plan_enterprise
  end.

Definition prices (p : PaidPlan) (billingCycle : BillingCycle) : Z :=
  match p, billingCycle with
  | paid_pro, monthly => 29
  | paid_pro, yearly => 290
  | paid_enterprise, monthly => 99
  | paid_enterprise, yearly => 990
  end%Z.

(** [`STRIPE_PRICE_ID_${plan.toUpperCase()}_${billingCycle.toUpperCase()}`] *)
Definition priceIdKey (p : PaidPlan) (billingCycle : BillingCycle) : string :=
  "STRIPE_PRICE_ID_"
  ++ match p with paid_pro => "PRO" | paid_enterprise => "ENTERPRISE" end
  ++ "_"
  ++ match billingCycle with monthly => "MONTHLY" | yearly => "YEARLY" end.

(** What [createSubscription] reads of the checkout session, and the
    metadata it sends. *)
Record CheckoutSession := mkSession {
  session_url : option string;
  session_subscription : option string;
}.

Record CheckoutMetadata := mkMetadata {
  md_subscriptionId : string;
  md_userId : string;
  md_plan : PaidPlan;
}.

(** What [createSubscription] can throw: what the other methods throw, or
    the database's duplicate-key error. *)
Inductive Failure :=
| Thrown (e : Exception)
| DuplicateKey.

Section Checkout.

(** The provider, as [createSubscription] uses it: the customer created
    for the email and name of the user with the given id, and the checkout
    session for a customer, price, return addresses and metadata. *)
Variable createStripeCustomer : string -> result Exception string.
Variable createStripeCheckoutSession :
  string -> string -> string -> string -> CheckoutMetadata ->
  result Exception CheckoutSession.

(** [process.env], the [_id] that Mongoose gives the new document, and
    the server's time zone. *)
Variable env : string -> option string.
Variable newId : string.
Variable zone : Date -> Date.

(** [`${process.env.CLIENT_URL}`] *)
Definition clientUrl : string :=
  match env "CLIENT_URL" with
  | Some u => u
  | None => "undefined"
  end.

(** [createSubscription] *)
Definition createSubscription (now : Date) (db : Db) (uid : string)
    (plan : PaidPlan) (billingCycle : BillingCycle)
  : result Failure (ISubscription * option string) * Db :=
  match users db !! uid with
  | None => (Err (Thrown (Api (ApiError.notFound "User not found"))), db)
  | Some user =>
      let existingActive :=
        match Subscription.findOne (ofUser uid) (subscriptions db) with
        | Some existing => Status_eqb (status existing) st_active
        | None => false
        end in
      if existingActive then
        (Err (Thrown (Api (ApiError.conflict
                             "User already has an active subscription"))), db)
      else
        let price := prices plan billingCycle in
        let customer :=
          match us_stripeCustomerId (subscription user) with
          | None | Some "" =>
              match createStripeCustomer uid with
              | Ok id =>
                  Ok (id,
                      mkDb (subscriptions db)
                        (<[ uid :=
                              mkUser (role user)
                                (mkUserSubscription
                                   (us_status (subscription user))
                                   (us_plan (subscription user))
                                   (us_startDate (subscription user))
                                   (us_endDate (subscription user))
                                   (Some id)
                                   (us_stripeSubscriptionId
                                      (subscription user)))
                                (usage user) ]> (users db)))
              | Err e => Err e
              end
          | Some id => Ok (id, db)
          end in
        match customer with
        | Err e => (Err (Thrown e), db)
        | Ok (stripeCustomerId, db1) =>
            let doc := Subscription.created
              (mkSubscription newId uid (planOf plan) st_pending billingCycle
                 price "USD" now (calculateEndDate zone now billingCycle) None
                 stripe
                 (mkPaymentDetails (Some stripeCustomerId) None None None None)
                 Subscription.schemaDefaults None []) in
            match Subscription.insert doc (subscriptions db1) with
            | None => (Err DuplicateKey, db1)
            | Some (sub, col) =>
                let db2 := mkDb col (users db1) in
                match env (priceIdKey plan billingCycle) with
                | None | Some "" =>
                    (Err (Thrown (Api (ApiError.internal
                                         "Stripe price ID not configured"))),
                     db2)
                | Some priceId =>
                    match createStripeCheckoutSession stripeCustomerId priceId
                            (clientUrl ++ "/subscription/success?session_id={CHECKOUT_SESSION_ID}")
                            (clientUrl ++ "/subscription/cancel")
                            (mkMetadata (_id sub) uid plan) with
                    | Err e => (Err (Thrown e), db2)
                    | Ok checkoutSession =>
                        let '(sub, col) :=
                          Subscription.save
                            (Subscription.loaded
                               (set_paymentDetails
                                  (set_stripeSubscriptionId
                                     (session_subscription checkoutSession)
                                     (paymentDetails sub)) sub)) col in
                        (Ok (sub,
                             match session_url checkoutSession with
                             | None | Some "" => None
                             | Some u => Some u
                             end),
                         mkDb col (users db1))
                    end
                end
            end
        end
  end.

End Checkout.

End SubscriptionService.

(** ** services/resumeService.ts: the limit check and the usage count

    The analyses themselves live in a collection of their own and are made
    by outside services; what a method does between its limit check and its
    usage count is a parameter. *)

Module ResumeService.

Section Analysis.

Variable A : Type.

(** The outcome of [uploadAndAnalyze] from the parsing of the file to the
    save of the analysis. *)
Variable analyse : result Exception A.

(** [ResumeAnalysis.findOne({ _id: analysisId, userId })], and the outcome
    of [reanalyzeResume] from the new analysis to the save. *)
Variable findAnalysis : string -> string -> option A.
Variable reanalyse : A -> result Exception A.

(** [user.usage.resumeAnalysisCount += 1] *)
Definition countAnalysis (u : IUser) : IUser :=
  mkUser (role u) (subscription u)
    (mkUsage (Js.plusOne (resumeAnalysisCount (usage u)))
       (interviewSessionsCount (usage u)) (lastResetDate (usage u))).

(** [uploadAndAnalyze] *)
Definition uploadAndAnalyze (now : Date) (db : Db) (uid : string)
  : result Exception A * Db :=
  match users db !! uid with
  | None => (Err (Api (ApiError.notFound "User not found")), db)
  | Some user =>
      let '(allowed, user) := User.canUseResumeAnalysis now user in
      if negb allowed then
        (Err (Api (ApiError.forbidden
                     "Resume analysis limit reached. Upgrade to Pro for unlimited analyses.")),
         db)
      else
        match analyse with
        | Err e => (Err e, db)
        | Ok resumeAnalysis =>
            (Ok resumeAnalysis,
             mkDb (subscriptions db) (<[ uid := countAnalysis user ]> (users db)))
        end
  end.

(** [reanalyzeResume] *)
Definition reanalyzeResume (db : Db) (analysisId uid : string)
  : result Exception A * Db :=
  match findAnalysis analysisId uid with
  | None => (Err (Api (ApiError.notFound "Analysis not found")), db)
  | Some existingAnalysis =>
      match users db !! uid with
      | None => (Err (Api (ApiError.notFound "User not found")), db)
      | Some user =>
          if negb (User.hasProAccess user)
             && (3 <=? resumeAnalysisCount (usage user))%N then
            (Err (Api (ApiError.forbidden
                         "Free tier limit reached. Upgrade to Pro for more analyses.")),
             db)
          else
            match reanalyse existingAnalysis with
            | Err e => (Err e, db)
            | Ok a =>
                (Ok a,
                 if negb (User.hasProAccess user)
                 then mkDb (subscriptions db)
                        (<[ uid := countAnalysis user ]> (users db))
                 else db)
            end
      end
  end.

End Analysis.

End ResumeService.

(** ** services/interviewService.ts: [createSession] *)

Inductive SessionType := practice | mock | assessment.

Module InterviewService.

Section Sessions.

Variable ISession : Type.

(** The outcome of [createSession] from the generation of the questions
    (ten for a pro user, three otherwise) to the save of the session. *)
Variable generate : bool -> result Exception ISession.

(** [user.usage.interviewSessionsCount += 1] *)
Definition countSession (u : IUser) : IUser :=
  mkUser (role u) (subscription u)
    (mkUsage (resumeAnalysisCount (usage u))
       (Js.plusOne (interviewSessionsCount (usage u)))
       (lastResetDate (usage u))).

(** [createSession] *)
Definition createSession (db : Db) (uid : string) (sessionType : SessionType)
  : result Exception ISession * Db :=
  match users db !! uid with
  | None => (Err (Api (ApiError.notFound "User not found")), db)
  | Some user =>
      let isPro := User.hasProAccess user in
      let isPractice :=
        match sessionType with practice => true | _ => false end in
      if negb isPro && negb isPractice then
        (Err (Api (ApiError.forbidden
                     "Pro subscription required for this interview type")), db)
      else if negb (User.canUseInterview user) then
        (Err (Api (ApiError.forbidden
                     "Interview limit reached. Upgrade to Pro for unlimited interviews.")),
         db)
      else
        match generate isPro with
        | Err e => (Err e, db)
        | Ok session =>
            (Ok session,
             if negb isPro
             then mkDb (subscriptions db)
                    (<[ uid := countSession user ]> (users db))
             else db)
        end
  end.

End Sessions.

End InterviewService.

(** ** Two requests on one subject and feature

    A request calls [checkFeatureAccess] and, when the answer allows it,
    [incrementFeatureUsage] after its work. Each call awaits the database,
    so the calls of two requests interleave; a schedule names the request
    that runs its next call, and each call runs to its end before the next
    one starts. *)

Module Race.

Inductive Caller := A | B.

Record Request := mkRequest {
  seen : option bool;   (* the [hasAccess] it was answered, once checked *)
  charged : bool;       (* whether it has run its increment *)
}.

Definition fresh : Request := mkRequest None false.

Definition advance (uid featureName : string) (r : Request) (db : Db)
  : Request * Db :=
  match seen r with
  | None =>
      match SubscriptionService.checkFeatureAccess db uid featureName with
      | Ok a => (mkRequest (Some (hasAccess a)) false, db)
      | Err _ => (mkRequest (Some false) false, db)
      end
  | Some true =>
      if charged r then (r, db)
      else (mkRequest (Some true) true,
            snd (SubscriptionService.incrementFeatureUsage db uid featureName))
  | Some false => (r, db)
  end.

Record World := mkWorld {
  reqA : Request;
  reqB : Request;
  store : Db;
}.

Definition step (uid featureName : string) (w : World) (c : Caller) : World :=
  match c with
  | A => let '(r, db) := advance uid featureName (reqA w) (store w) in
         mkWorld r (reqB w) db
  | B => let '(r, db) := advance uid featureName (reqB w) (store w) in
         mkWorld (reqA w) r db
  end.

Definition run (uid featureName : string) (schedule : list Caller) (db : Db)
  : World :=
  fold_left (step uid featureName) schedule (mkWorld fresh fresh db).

Definition finished (r : Request) : bool :=
  match seen r with
  | Some true => charged r
  | Some false => true
  | None => false
  end.

Definition allowed (r : Request) : bool :=
  match seen r with
  | Some true => true
  | _ => false
  end.

Definition successes (w : World) : nat :=
  (if allowed (reqA w) then 1 else 0) + (if allowed (reqB w) then 1 else 0).

End Race.

(** ** Sample documents *)

Module Sample.

Definition jan15 : Date := mkDate 2024 0 15 0.
Definition feb15 : Date := mkDate 2024 1 15 0.
Definition mar10 : Date := mkDate 2024 2 10 0.

Definition details : PaymentDetails :=
  mkPaymentDetails (Some "cus_1") None None None None.

Definition subscriptionOf (p : Plan) (st : Status) (f : Features)
  : ISubscription :=
  mkSubscription "sub1" "user1" p st monthly 29 "USD" jan15 feb15 None
    stripe details f None [].

(** A pro subscription that has used its ten weekly job matches. *)
Definition proFeatures : Features :=
  mkFeatures (mkMonthly true (-1) 7) (mkMonthly true (-1) 2)
    (mkWeekly true 10 10) (mkRoadmaps true 3) (mkMonthly true (-1) 0)
    (mkApiAccess true 1000) true false.

Definition proActive : ISubscription :=
  subscriptionOf plan_pro st_active proFeatures.

Definition proPending : ISubscription :=
  subscriptionOf plan_pro st_pending (Subscription.planFeatures plan_pro).

(** A subscription document with the schema's defaults for [features]:
    one interview a month, none used. *)
Definition freeActive : ISubscription :=
  subscriptionOf plan_free st_active (Subscription.planFeatures plan_free).

Definition userWith (r : Role) (resumes sessions : N) : IUser :=
  mkUser r (mkUserSubscription us_none plan_free None None (Some "cus_1") None)
    (mkUsage resumes sessions jan15).

Definition dbOf (col : list ISubscription) (u : IUser) : Db :=
  mkDb col {[ "user1" := u ]}.

Definition providerOk (id : string) : result Exception unit := Ok tt.

Definition event (type : string) : WebhookEvent :=
  mkEvent type "sub1" "sub_stripe_1" "evt_1".

(** A provider that creates every customer and every checkout session,
    and an environment with the price id of the monthly pro plan only. *)
Definition customerOk (uid : string) : result Exception string := Ok "cus_9".

Definition checkoutOk (customer priceId successUrl cancelUrl : string)
    (metadata : SubscriptionService.CheckoutMetadata)
  : result Exception SubscriptionService.CheckoutSession :=
  Ok (SubscriptionService.mkSession (Some "https://checkout.example/c1") None).

Definition envProMonthly (key : string) : option string :=
  if String.eqb key "STRIPE_PRICE_ID_PRO_MONTHLY" then Some "price_1"
  else None.

Definition newUser : IUser :=
  mkUser role_free (mkUserSubscription us_none plan_free None None None None)
    (mkUsage 0 0 jan15).

(** A zone without transitions: every local time exists. *)
Definition utc (t : Date) : Date := t.

(** A zone where daylight saving starts on 10 March 2024 at 2:00: the
    local times from 2:00 to 3:00 of that day are skipped, and read back
    one hour later. *)
Definition newYork (t : Date) : Date :=
  if ((getFullYear t =? 2024) && (getMonth t =? 2) && (getDate t =? 10)
      && (7200000 <=? msOfDay t) && (msOfDay t <? 10800000))%Z
  then mkDate (getFullYear t) (getMonth t) (getDate t) (msOfDay t + 3600000)
  else t.

End Sample.

(** ** The shape of [features]

    [zeroUsed] forgets the four counters; a subscription has the shape of
    its plan when that leaves the plan's template. *)

Module Shape.

Definition zeroUsed (f : Features) : Features :=
  mkFeatures (Subscription.zeroMonthly (resumeAnalysis f))
    (Subscription.zeroMonthly (interviews f))
    (Subscription.zeroWeekly (jobMatches f)) (roadmaps f)
    (Subscription.zeroMonthly (linkedInReview f)) (apiAccess f)
    (prioritySupport f) (customBranding f).

Definition ofPlan (s : ISubscription) : Prop :=
  zeroUsed (features s) = Subscription.planFeatures (plan s).

End Shape.

(** ** The keys of the Subscription collection

    [_id] is unique in every collection and the schema declares [userId]
    unique; [keys] lists who owns which document, in storage order. A
    database is backed when every user with the role pro has an active
    subscription. *)

Module Keys.

Definition keys (col : list ISubscription) : list (string * string) :=
  map (fun s => (_id s, userId s)) col.

Definition unique (col : list ISubscription) : Prop :=
  List.NoDup (map _id col) /\ List.NoDup (map userId col).

Definition proBacked (db : Db) : Prop :=
  forall uid u,
    users db !! uid = Some u -> role u = role_pro ->
    exists s, In s (subscriptions db) /\ userId s = uid
              /\ status s = st_active.

(** The same documents with the same owners, and the same users. *)
Definition kept (db db' : Db) : Prop :=
  keys (subscriptions db') = keys (subscriptions db)
  /\ dom (users db') = dom (users db).

End Keys.

(** ** What a first [createSubscription] stores

    The subscription document with the provider's reference [ref], and the
    user with the new customer id. *)

Module Created.

Definition pendingDoc (newId : string) (zone : Date -> Date) (now : Date)
    (uid cid : string)
    (paid : SubscriptionService.PaidPlan) (billingCycle : BillingCycle)
    (ref : option string) : ISubscription :=
  mkSubscription newId uid (SubscriptionService.planOf paid) st_pending
    billingCycle (SubscriptionService.prices paid billingCycle) "USD" now
    (SubscriptionService.calculateEndDate zone now billingCycle) None stripe
    (mkPaymentDetails (Some cid) ref None None None)
    (Subscription.planFeatures (SubscriptionService.planOf paid)) None [].

Definition withCustomer (user : IUser) (cid : string) : IUser :=
  mkUser (role user)
    (mkUserSubscription (us_status (subscription user))
       (us_plan (subscription user)) (us_startDate (subscription user))
       (us_endDate (subscription user)) (Some cid)
       (us_stripeSubscriptionId (subscription user)))
    (usage user).

End Created.

(** * Properties *)

(** ** The collection *)

Section Collection.

Implicit Types (s : ISubscription) (col : list ISubscription).
Implicit Types (q : ISubscription -> bool).

Lemma findOne_matches q col s :
  Subscription.findOne q col = Some s -> In s col /\ q s = true.
Proof. unfold Subscription.findOne. apply find_some. Qed.

Lemma findOne_no_match q col :
  (forall s, In s col -> q s = false) -> Subscription.findOne q col = None.
Proof.
  unfold Subscription.findOne.
  induction col as [|d rest IH]; intros Hq; [reflexivity|].
  simpl. rewrite (Hq d (or_introl eq_refl)).
  apply IH. intros s Hs. apply Hq. now right.
Qed.

Lemma findById_id id col s :
  Subscription.findById id col = Some s -> _id s = id.
Proof.
  intros H. apply findOne_matches in H as [_ H].
  now apply String.eqb_eq in H.
Qed.

(** A query that matched [s] returns the saved document once a document
    with the same [_id], and still matching, has been written. *)
Lemma findOne_write q col s s' :
  Subscription.findOne q col = Some s ->
  q s' = true -> _id s' = _id s ->
  Subscription.findOne q (Subscription.write s' col) = Some s'.
Proof.
  unfold Subscription.findOne. intros Hfind Hq Hid.
  induction col as [|d rest IH]; [discriminate|].
  simpl in *. destruct (q d) eqn:Hd.
  - injection Hfind as ->. rewrite <- Hid, String.eqb_refl.
    simpl. now rewrite Hq.
  - destruct (String.eqb (_id d) (_id s')); simpl.
    + now rewrite Hq.
    + rewrite Hd. now apply IH.
Qed.

Lemma findById_write col s s' :
  Subscription.findById (_id s) col = Some s ->
  _id s' = _id s ->
  Subscription.findById (_id s) (Subscription.write s' col) = Some s'.
Proof.
  intros Hfind Hid. unfold Subscription.findById in *.
  apply (findOne_write _ _ s); [assumption| |assumption].
  rewrite Hid. apply String.eqb_refl.
Qed.

Lemma write_write s col :
  Subscription.write s (Subscription.write s col) = Subscription.write s col.
Proof.
  induction col as [|d rest IH]; simpl.
  - now rewrite String.eqb_refl.
  - destruct (String.eqb (_id d) (_id s)) eqn:Hd; simpl.
    + now rewrite String.eqb_refl.
    + now rewrite Hd, IH.
Qed.

(** A document returned by a query is saved as it is: the pre-save
    middleware only acts on a modified [plan]. *)
Lemma preSave_loaded s : Subscription.preSave (Subscription.loaded s) = s.
Proof. reflexivity. Qed.

End Collection.

(** ** Computed keys *)

Section ComputedKeys.

Lemma ownProperty_absent {A} (own : list (string * A)) key :
  ~ In key (map fst own) -> Js.ownProperty own key = None.
Proof.
  induction own as [|[k v] rest IH]; intros Hnot; [reflexivity|].
  simpl in *. destruct (String.eqb_spec key k) as [->|_].
  - exfalso. apply Hnot. now left.
  - apply IH. intros Hin. apply Hnot. now right.
Qed.

Lemma ownFeatures_keys f :
  map fst (Subscription.ownFeatures f) = Subscription.featureNames.
Proof. reflexivity. Qed.

Lemma freeLimits_keys_known key :
  In key (map fst SubscriptionService.freeLimits) ->
  In key Subscription.featureNames.
Proof. simpl. intuition. Qed.

(** Under a name that is not a key of [features], the lookup finds
    nothing, or a member of [Object.prototype]. *)
Lemma feature_unknown f name :
  ~ In name Subscription.featureNames ->
  Subscription.feature f name = Js.Undefined
  \/ exists m, Subscription.feature f name = Js.Inherited m.
Proof.
  intros Hnot. unfold Subscription.feature, Js.get.
  rewrite ownProperty_absent by now rewrite ownFeatures_keys.
  destruct (Js.objectPrototype name); eauto.
Qed.

(** The three monthly counted features are the only names under which
    the lookup finds an object with [monthlyLimit]. *)
Lemma feature_monthly f name m :
  Subscription.feature f name = Js.Own (Subscription.VMonthly m) ->
  (name = "resumeAnalysis" /\ m = resumeAnalysis f)
  \/ (name = "interviews" /\ m = interviews f)
  \/ (name = "linkedInReview" /\ m = linkedInReview f).
Proof.
  unfold Subscription.feature, Js.get, Subscription.ownFeatures. simpl.
  repeat match goal with
  | |- context [String.eqb name ?k] =>
      destruct (String.eqb_spec name k) as [->|?]
  end;
  try (intros [= <-]; tauto); try discriminate.
  destruct (Js.objectPrototype name); discriminate.
Qed.

(** [bumpUsed] acts exactly when the test of [incrementUsage] holds: the
    value found is an object and has a [used] field. *)
Lemma bumpUsed_test f name :
  Subscription.bumpUsed f name = None
  <-> Subscription.isObject (Subscription.feature f name)
      && bool_decide
           (is_Some (Subscription.usedOf (Subscription.feature f name)))
      = false.
Proof.
  unfold Subscription.bumpUsed, Subscription.feature, Js.get,
    Subscription.ownFeatures. simpl.
  repeat match goal with
  | |- context [String.eqb ?n ?k] =>
      is_var n; destruct (String.eqb_spec n k) as [->|?]; simpl
  end; simpl; try (split; discriminate); try (split; reflexivity).
  destruct (Js.objectPrototype name) as [[]|]; split; reflexivity.
Qed.

End ComputedKeys.

(** ** The usage limit of a counted feature *)

Section UsageLimit.

Lemma isWithinLimit_bounded (limit used : Z) :
  (0 <= limit)%Z ->
  Subscription.isWithinLimit limit used = (used <? limit)%Z.
Proof.
  intros Hl. unfold Subscription.isWithinLimit.
  destruct (Z.eqb_spec limit (-1)); [lia|reflexivity].
Qed.

Lemma isWithinLimit_unlimited (used : Z) :
  Subscription.isWithinLimit (-1) used = true.
Proof. reflexivity. Qed.

Lemma checkUsageLimit_monthly s name m :
  Subscription.feature (features s) name = Js.Own (Subscription.VMonthly m) ->
  Subscription.checkUsageLimit s name
  = Subscription.isWithinLimit (monthlyLimit m) (Z.of_N (m_used m)).
Proof. intros H. unfold Subscription.checkUsageLimit. now rewrite H. Qed.

(** A feature without [monthlyLimit] passes whatever it holds; this is the
    case of [jobMatches], whose limit is a [weeklyLimit]. *)
Lemma checkUsageLimit_jobMatches s :
  Subscription.checkUsageLimit s "jobMatches" = true.
Proof. reflexivity. Qed.

(** C9. For a feature with a [monthlyLimit], [checkUsageLimit] answers
    [used < limit] whenever the limit is 0 or more, hence false for every
    [used] when the limit is 0, and answers true for every [used] when the
    limit is the sentinel -1. The comparison itself, [isWithinLimit],
    behaves so on all integers. *)
Theorem checkUsageLimit_within_limit
    (s : ISubscription) (name : string) (m : MonthlyFeature)
    (Hfeature : Subscription.feature (features s) name
                = Js.Own (Subscription.VMonthly m)) :
  ((0 <= monthlyLimit m)%Z ->
     Subscription.checkUsageLimit s name
     = (Z.of_N (m_used m) <? monthlyLimit m)%Z)
  /\ (monthlyLimit m = 0%Z -> Subscription.checkUsageLimit s name = false)
  /\ (monthlyLimit m = (-1)%Z -> Subscription.checkUsageLimit s name = true)
  /\ (forall limit used : Z,
        (0 <= limit)%Z ->
        Subscription.isWithinLimit limit used = (used <? limit)%Z)
  /\ (forall used : Z, Subscription.isWithinLimit (-1) used = true).
Proof.
  rewrite (checkUsageLimit_monthly _ _ _ Hfeature).
  repeat split.
  - apply isWithinLimit_bounded.
  - intros ->. rewrite isWithinLimit_bounded by lia.
    apply Z.ltb_ge. lia.
  - intros ->. apply isWithinLimit_unlimited.
  - apply isWithinLimit_bounded.
Qed.

Lemma checkUsageLimit_within_limit_witness :
  Subscription.checkUsageLimit Sample.freeActive "resumeAnalysis"
  = (Z.of_N 0 <? 3)%Z
  /\ Subscription.checkUsageLimit Sample.proActive "interviews" = true.
Proof.
  split.
  - apply (checkUsageLimit_within_limit Sample.freeActive "resumeAnalysis"
             (mkMonthly true 3 0)); [reflexivity | simpl; lia].
  - apply (checkUsageLimit_within_limit Sample.proActive "interviews"
             (mkMonthly true (-1) 2)); reflexivity.
Defined.

End UsageLimit.

(** ** Changing the plan of a subscription *)

Section PlanSwap.

Lemma planFeatures_unused p :
  let f := Subscription.planFeatures p in
  m_used (resumeAnalysis f) = 0%N /\ m_used (interviews f) = 0%N
  /\ w_used (jobMatches f) = 0%N /\ m_used (linkedInReview f) = 0%N.
Proof. destruct p; repeat split. Qed.

Lemma Plan_eqb_neq p q : p <> q -> Plan_eqb p q = false.
Proof. destruct p, q; simpl; congruence. Qed.

(** C1, as the code has it. Saving a subscription whose plan was changed
    replaces its whole [features] structure by the template of the new
    plan: every counted feature gets the template's [used], which is 0,
    whatever the counter held before; the status is not touched. *)
Theorem plan_swap_takes_template (s : ISubscription) (p : Plan)
    (Hchanged : plan s <> p) :
  let s' := Subscription.swapPlan p s in
  plan s' = p /\ status s' = status s
  /\ features s' = Subscription.planFeatures p
  /\ m_used (resumeAnalysis (features s')) = 0%N
  /\ m_used (interviews (features s')) = 0%N
  /\ w_used (jobMatches (features s')) = 0%N
  /\ m_used (linkedInReview (features s')) = 0%N.
Proof.
  unfold Subscription.swapPlan, Subscription.preSave,
    Subscription.assignPlan. simpl.
  rewrite Plan_eqb_neq by congruence. simpl.
  pose proof (planFeatures_unused p) as Hu. simpl in Hu. tauto.
Qed.

Lemma plan_swap_takes_template_witness :
  let s' := Subscription.swapPlan plan_enterprise Sample.proActive in
  plan s' = plan_enterprise /\ status s' = status Sample.proActive
  /\ features s' = Subscription.planFeatures plan_enterprise
  /\ m_used (resumeAnalysis (features s')) = 0%N
  /\ m_used (interviews (features s')) = 0%N
  /\ w_used (jobMatches (features s')) = 0%N
  /\ m_used (linkedInReview (features s')) = 0%N.
Proof.
  apply (plan_swap_takes_template Sample.proActive plan_enterprise).
  discriminate.
Defined.

(** C1, as the spec states it, fails: an active pro subscription that has
    used 7 resume analyses and 10 job matches holds 0 for both once it is
    saved as enterprise. *)
Lemma plan_swap_loses_used :
  let s := Sample.proActive in
  let s' := Subscription.swapPlan plan_enterprise s in
  status s = st_active /\ plan s = plan_pro /\ plan s' = plan_enterprise
  /\ m_used (resumeAnalysis (features s)) = 7%N
  /\ w_used (jobMatches (features s)) = 10%N
  /\ m_used (resumeAnalysis (features s'))
     <> m_used (resumeAnalysis (features s))
  /\ w_used (jobMatches (features s')) <> w_used (jobMatches (features s)).
Proof. repeat split; discriminate. Qed.

End PlanSwap.

(** ** The access check on a subscription *)

Section SubscriptionPath.

(** C2. The pro user who has used all ten weekly job matches is still
    granted access: [checkFeatureAccess] looks for [monthlyLimit] only,
    finds none on [jobMatches], and takes the feature for unlimited; so
    does [checkUsageLimit]. [getSubscriptionDetails] reports the same
    feature with limit 10 and 10 used. *)
Theorem checkFeatureAccess_skips_weeklyLimit :
  let db := Sample.dbOf [Sample.proActive]
              (Sample.userWith role_pro 0 0) in
  w_enabled (jobMatches (features Sample.proActive)) = true
  /\ weeklyLimit (jobMatches (features Sample.proActive)) = 10%Z
  /\ w_used (jobMatches (features Sample.proActive)) = 10%N
  /\ SubscriptionService.checkFeatureAccess db "user1" "jobMatches"
     = Ok (mkAccess true (Some (Js.Number (-1))) (Some 10%N) None)
  /\ Subscription.checkUsageLimit Sample.proActive "jobMatches" = true
  /\ SubscriptionService.rep_jobMatches
       (snd (SubscriptionService.getSubscriptionDetails db "user1"))
     = (10%N, 10%Z).
Proof. repeat split. Qed.

(** Whatever [weeklyLimit] and [used] hold, an enabled [jobMatches] is
    answered with access and the limit -1. *)
Lemma checkFeatureAccess_jobMatches db uid s :
  Subscription.findOne (SubscriptionService.ofUser uid)
    (subscriptions db) = Some s ->
  w_enabled (jobMatches (features s)) = true ->
  SubscriptionService.checkFeatureAccess db uid "jobMatches"
  = Ok (mkAccess true (Some (Js.Number (-1)))
          (Some (w_used (jobMatches (features s)))) None).
Proof.
  intros Hfind Hen. unfold SubscriptionService.checkFeatureAccess.
  rewrite Hfind. simpl. now rewrite Hen.
Qed.

(** A monthly counted feature, by contrast, is checked against its
    limit. *)
Lemma checkFeatureAccess_monthly db uid s name m :
  Subscription.findOne (SubscriptionService.ofUser uid)
    (subscriptions db) = Some s ->
  Subscription.feature (features s) name = Js.Own (Subscription.VMonthly m) ->
  m_enabled m = true ->
  monthlyLimit m <> (-1)%Z ->
  SubscriptionService.checkFeatureAccess db uid name
  = Ok (mkAccess (Z.of_N (m_used m) <? monthlyLimit m)%Z
          (Some (Js.Number (monthlyLimit m))) (Some (m_used m))
          (if (monthlyLimit m <=? Z.of_N (m_used m))%Z
           then Some "Monthly limit reached. Upgrade your plan."
           else None)).
Proof.
  intros Hfind Hf Hen Hl. unfold SubscriptionService.checkFeatureAccess.
  rewrite Hfind, Hf. simpl. rewrite Hen.
  now destruct (Z.eqb_spec (monthlyLimit m) (-1)).
Qed.

End SubscriptionPath.

(** ** The access check without a subscription *)

Section FreeTier.

Lemma no_subscription db uid :
  subscriptions db = [] ->
  Subscription.findOne (SubscriptionService.ofUser uid)
    (subscriptions db) = None.
Proof. now intros ->. Qed.

(** C5. A free user with three analyses counted two calendar months ago
    is denied by [checkFeatureAccess], which reads the stored counter and
    never looks at [lastResetDate]; the month rollover exists only in
    [canUseResumeAnalysis], which on the same user and date zeroes the
    counter, stamps the date and allows the analysis. *)
Theorem checkFeatureAccess_never_resets :
  let user := Sample.userWith role_free 3 0 in
  let db := Sample.dbOf [] user in
  (0 < User.monthDiff Sample.mar10 (lastResetDate (usage user)))%Z
  /\ SubscriptionService.checkFeatureAccess db "user1" "resumeAnalysis"
     = Ok (mkAccess false (Some (Js.Number 3)) (Some 3%N)
             (Some "Free tier limit reached. Upgrade to Pro."))
  /\ User.canUseResumeAnalysis Sample.mar10 user
     = (true,
        mkUser role_free (subscription user) (mkUsage 0 0 Sample.mar10)).
Proof. repeat split. Qed.

(** C10. A free user with one interview session counted is reported
    [used = 0] and granted access to [interviews]: the key built from the
    feature name is [interviewsCount], which [usage] does not have, so the
    read falls back to 0. [canUseInterview] reads [interviewSessionsCount]
    and refuses the same user. For [resumeAnalysis] the built key is the
    stored one. *)
Theorem checkFeatureAccess_misses_interview_counter :
  let user := Sample.userWith role_free 2 1 in
  let db := Sample.dbOf [] user in
  interviewSessionsCount (usage user) = 1%N
  /\ SubscriptionService.checkFeatureAccess db "user1" "interviews"
     = Ok (mkAccess true (Some (Js.Number 1)) (Some 0%N) None)
  /\ User.canUseInterview user = false
  /\ SubscriptionService.checkFeatureAccess db "user1" "resumeAnalysis"
     = Ok (mkAccess true (Some (Js.Number 3)) (Some 2%N) None).
Proof. repeat split. Qed.

(** Without a subscription, [resumeAnalysis] is answered from the stored
    counter against the limit 3, and [interviews] with [used = 0] whatever
    the user's counters hold. *)
Lemma checkFeatureAccess_free_resumeAnalysis db uid u :
  Subscription.findOne (SubscriptionService.ofUser uid)
    (subscriptions db) = None ->
  users db !! uid = Some u ->
  SubscriptionService.checkFeatureAccess db uid "resumeAnalysis"
  = Ok (mkAccess (resumeAnalysisCount (usage u) <? 3)%N (Some (Js.Number 3))
          (Some (resumeAnalysisCount (usage u)))
          (if (3 <=? resumeAnalysisCount (usage u))%N
           then Some "Free tier limit reached. Upgrade to Pro."
           else None)).
Proof.
  intros Hnone Hu. unfold SubscriptionService.checkFeatureAccess.
  rewrite Hnone, Hu. simpl.
  replace (Z.of_N (resumeAnalysisCount (usage u)) <? 3)%Z
    with (resumeAnalysisCount (usage u) <? 3)%N
    by (destruct (N.ltb_spec (resumeAnalysisCount (usage u)) 3),
                 (Z.ltb_spec (Z.of_N (resumeAnalysisCount (usage u))) 3);
        lia || reflexivity).
  replace (3 <=? Z.of_N (resumeAnalysisCount (usage u)))%Z
    with (3 <=? resumeAnalysisCount (usage u))%N
    by (destruct (N.leb_spec 3 (resumeAnalysisCount (usage u))),
                 (Z.leb_spec 3 (Z.of_N (resumeAnalysisCount (usage u))));
        lia || reflexivity).
  reflexivity.
Qed.

Lemma checkFeatureAccess_free_interviews db uid :
  Subscription.findOne (SubscriptionService.ofUser uid)
    (subscriptions db) = None ->
  SubscriptionService.checkFeatureAccess db uid "interviews"
  = Ok (mkAccess true (Some (Js.Number 1)) (Some 0%N) None).
Proof.
  intros Hnone. unfold SubscriptionService.checkFeatureAccess.
  rewrite Hnone. now destruct (users db !! uid).
Qed.

End FreeTier.

(** ** Names that are not features *)

Section UnknownFeature.

Ltac no_such_key H :=
  repeat (match type of H with
          | (?n ++ _)%string = _ =>
              destruct n; simpl in H; [discriminate H|]; injection H as _ H
          end);
  match type of H with
  | (?n ++ _)%string = _ => destruct n; discriminate H
  end.

(** The key [`${featureName}Count`] is never [lastResetDate] and never
    the name of a member of [Object.prototype]: on [user.usage] it reaches
    one of the two counters or nothing. *)
Lemma usageField_reaches_counters_only (featureName : string) :
  featureName ++ "Count" <> "lastResetDate"
  /\ Js.objectPrototype (featureName ++ "Count") = None.
Proof.
  split.
  - intros H. no_such_key H.
  - unfold Js.objectPrototype. simpl.
    repeat match goal with
    | |- context [String.eqb ?a ?k] =>
        destruct (String.eqb_spec a k) as [H|_]; [exfalso; no_such_key H|]
    end.
    reflexivity.
Qed.

(** C8, as the code has it. Asking for a name that is not a feature
    throws nothing: the answer is an ordinary result with
    [hasAccess = false]. With a subscription the answer carries neither
    limit nor usage, and one of the two messages of a denial. Without one
    it carries what [freeLimits[featureName] || 0] yields: the limit 0 and
    the message of a reached limit, or, for the name of a member of
    [Object.prototype], that member as the limit and no message. *)
Theorem unknown_feature_is_denied (db : Db) (uid name : string)
    (Hunknown : ~ In name Subscription.featureNames) :
  exists a : Access,
    SubscriptionService.checkFeatureAccess db uid name = Ok a
    /\ hasAccess a = false
    /\ (Subscription.findOne (SubscriptionService.ofUser uid)
          (subscriptions db) <> None ->
        limit a = None /\ used a = None
        /\ (access_message a = Some "Feature not available"
            \/ access_message a = Some "Feature not enabled for your plan"))
    /\ (Subscription.findOne (SubscriptionService.ofUser uid)
          (subscriptions db) = None ->
        match Js.objectPrototype name with
        | None =>
            limit a = Some (Js.Number 0)
            /\ access_message a
               = Some "Free tier limit reached. Upgrade to Pro."
        | Some m =>
            limit a = Some (Js.NotANumber m) /\ access_message a = None
        end).
Proof.
  unfold SubscriptionService.checkFeatureAccess.
  destruct (Subscription.findOne _ _) as [s|].
  - destruct (feature_unknown (features s) name Hunknown) as [->|[m ->]].
    + eexists. split; [reflexivity|]. simpl.
      split; [reflexivity|]. split; [|discriminate].
      intros _. repeat split. now left.
    + destruct m; (eexists; split; [reflexivity|]); simpl;
        (split; [reflexivity|]); (split; [|discriminate]);
        intros _; repeat split; auto.
  - eexists. split; [reflexivity|]. simpl.
    unfold Js.get. rewrite ownProperty_absent
      by (intros Hin; apply Hunknown; now apply freeLimits_keys_known).
    destruct (Js.objectPrototype name) as [m|]; simpl.
    + split; [reflexivity|]. split; [intros H; now destruct H|].
      intros _. split; reflexivity.
    + assert (Hge : (0 <=? Z.of_N (SubscriptionService.freeUsed
                                    (users db !! uid) name))%Z = true)
        by (apply Z.leb_le; lia).
      rewrite Hge.
      split; [apply Z.ltb_ge; lia|]. split; [intros H; now destruct H|].
      intros _. split; reflexivity.
Qed.

Lemma unknown_feature_is_denied_witness :
  exists a : Access,
    SubscriptionService.checkFeatureAccess
      (Sample.dbOf [Sample.proActive] (Sample.userWith role_pro 0 0))
      "user1" "videoCalls" = Ok a
    /\ hasAccess a = false.
Proof.
  destruct (unknown_feature_is_denied
              (Sample.dbOf [Sample.proActive] (Sample.userWith role_pro 0 0))
              "user1" "videoCalls") as (a & Ha & Hdenied & _).
  - simpl. intros H. repeat destruct H as [H|H]; try discriminate H; exact H.
  - exists a. split; assumption.
Defined.

(** C8, as the spec states it, fails: for the name [videoCalls], which no
    plan has, the check returns a result and not an error, with and
    without a subscription. *)
Lemma unknown_feature_returns_a_result :
  ~ In "videoCalls" Subscription.featureNames
  /\ SubscriptionService.checkFeatureAccess
       (Sample.dbOf [Sample.proActive] (Sample.userWith role_pro 0 0))
       "user1" "videoCalls"
     = Ok (mkAccess false None None (Some "Feature not available"))
  /\ SubscriptionService.checkFeatureAccess
       (Sample.dbOf [] (Sample.userWith role_free 0 0))
       "user1" "videoCalls"
     = Ok (mkAccess false (Some (Js.Number 0)) (Some 0%N)
             (Some "Free tier limit reached. Upgrade to Pro.")).
Proof.
  split; [|split; reflexivity].
  simpl. intros H. repeat destruct H as [H|H]; try discriminate H; exact H.
Qed.

End UnknownFeature.

(** ** Lifecycle: activation, cancellation, provider events *)

Section Lifecycle.

Implicit Types (db : Db) (s : ISubscription).

Lemma Status_eqb_eq a b : Status_eqb a b = true <-> a = b.
Proof. destruct a, b; simpl; split; congruence. Qed.

Lemma In_write s col : In s (Subscription.write s col).
Proof.
  induction col as [|d rest IH]; simpl; [now left|].
  destruct (String.eqb (_id d) (_id s)); simpl; auto.
Qed.

(** The document that [activateSubscription] saves. *)
Lemma activateSubscription_found db sid ref s :
  Subscription.findById sid (subscriptions db) = Some s ->
  exists s' users',
    SubscriptionService.activateSubscription db sid ref
    = (Ok s', mkDb (Subscription.write s' (subscriptions db)) users')
    /\ s' = set_paymentDetails
              (set_stripeSubscriptionId (Some ref) (paymentDetails s))
              (set_status st_active s)
    /\ (forall u, users db !! userId s = Some u ->
          users' = <[ userId s :=
                        mkUser role_pro
                          (mkUserSubscription us_active (plan s)
                             (Some (startDate s)) (Some (endDate s))
                             (us_stripeCustomerId (subscription u))
                             (Some ref))
                          (usage u) ]> (users db))
    /\ (users db !! userId s = None -> users' = users db).
Proof.
  intros Hfind. unfold SubscriptionService.activateSubscription.
  rewrite Hfind. unfold Subscription.save. rewrite preSave_loaded. simpl.
  eexists _, _. split; [reflexivity|]. split; [reflexivity|].
  split.
  - intros u Hu. now rewrite Hu.
  - intros Hu. now rewrite Hu.
Qed.

Lemma activateSubscription_missing db sid ref :
  Subscription.findById sid (subscriptions db) = None ->
  SubscriptionService.activateSubscription db sid ref
  = (Err (Api (ApiError.notFound "Subscription not found")), db).
Proof.
  intros Hfind. unfold SubscriptionService.activateSubscription.
  now rewrite Hfind.
Qed.

(** C7. A second [activateSubscription] with the same payment reference
    returns the same document and leaves the database, subscriptions and
    users, exactly as the first call left it; the status is active and the
    [features], with every [used] counter, are those the subscription had
    before the first call. The document returned is the one stored under
    the id. *)
Theorem activateSubscription_idempotent
    (db db1 : Db) (sid ref : string) (s1 : ISubscription)
    (Hfirst : SubscriptionService.activateSubscription db sid ref
              = (Ok s1, db1)) :
  SubscriptionService.activateSubscription db1 sid ref = (Ok s1, db1)
  /\ status s1 = st_active
  /\ (forall s0, Subscription.findById sid (subscriptions db) = Some s0 ->
        features s1 = features s0)
  /\ Subscription.findById sid (subscriptions db1) = Some s1.
Proof.
  destruct (Subscription.findById sid (subscriptions db)) as [s0|] eqn:Hfind;
    [|rewrite activateSubscription_missing in Hfirst by assumption;
      discriminate].
  pose proof (findById_id _ _ _ Hfind) as Hid.
  destruct (activateSubscription_found db sid ref s0 Hfind)
    as (s' & users' & Hact & Hs' & Hsome & Hnone).
  rewrite Hact in Hfirst. injection Hfirst as <- <-.
  assert (Hid' : _id s' = _id s0) by now subst s'.
  assert (Huid : userId s' = userId s0) by now subst s'.
  assert (Hfind1 : Subscription.findById sid
                     (Subscription.write s' (subscriptions db)) = Some s').
  { rewrite <- Hid. apply findById_write; [now rewrite Hid | assumption]. }
  split; [|split; [|split; [|exact Hfind1]]].
  - destruct (activateSubscription_found
                (mkDb (Subscription.write s' (subscriptions db)) users')
                sid ref s' Hfind1)
      as (s'' & users'' & Hact2 & Hs'' & Hsome2 & Hnone2).
    rewrite Hact2. simpl in *.
    assert (s'' = s') as -> by (subst s'' s'; reflexivity).
    rewrite write_write. f_equal. f_equal.
    rewrite Huid in *.
    destruct (users db !! userId s0) as [u|] eqn:Hu.
    + rewrite (Hsome u eq_refl) in *.
      rewrite (Hsome2 _ (lookup_insert_eq _ _ _)).
      rewrite insert_insert_eq. subst s'. reflexivity.
    + rewrite (Hnone eq_refl) in *. now apply Hnone2.
  - now subst s'.
  - intros s0' [= <-]. now subst s'.
Qed.

Lemma activateSubscription_idempotent_witness :
  let db := Sample.dbOf [Sample.proPending] (Sample.userWith role_free 2 0) in
  let s1 :=
    set_paymentDetails
      (set_stripeSubscriptionId (Some "sub_stripe_1") Sample.details)
      (set_status st_active Sample.proPending) in
  let db1 :=
    snd (SubscriptionService.activateSubscription db "sub1" "sub_stripe_1") in
  SubscriptionService.activateSubscription db "sub1" "sub_stripe_1"
  = (Ok s1, db1)
  /\ SubscriptionService.activateSubscription db1 "sub1" "sub_stripe_1"
     = (Ok s1, db1)
  /\ status s1 = st_active.
Proof.
  intros db s1 db1.
  assert (H : SubscriptionService.activateSubscription db "sub1"
                "sub_stripe_1" = (Ok s1, db1)) by reflexivity.
  split; [exact H|].
  destruct (activateSubscription_idempotent db db1 "sub1" "sub_stripe_1" s1 H)
    as (H1 & H2 & _).
  split; assumption.
Defined.

End Lifecycle.

Section Cancellation.

Variable provider : string -> result Exception unit.

Implicit Types (db : Db) (s : ISubscription).

Lemma cancelSubscription_none now db uid reason feedback :
  Subscription.findOne (SubscriptionService.activeOf uid)
    (subscriptions db) = None ->
  SubscriptionService.cancelSubscription provider now db uid reason feedback
  = (Err (Api (ApiError.notFound "No active subscription found")), db).
Proof.
  intros Hfind. unfold SubscriptionService.cancelSubscription.
  now rewrite Hfind.
Qed.

(** C6, as the code has it. [cancelSubscription] looks for the user's
    subscription among the active ones. When the user has none that is
    active, it throws the not-found [ApiError] (status 404) and writes
    nothing. When it finds one and the provider accepts the cancellation,
    it saves that very document, under its [_id] and still owned by the
    user, as cancelled with the cancellation stamped and every other field,
    its plan and [features] (every [used] counter) among them, as it was;
    the collection changes by this one write. It sets the user's role to
    free and the user's subscription status to cancelled, leaving the
    user's usage counters and every other user alone. *)
Theorem cancelSubscription_needs_active
    (now : Date) (db : Db) (uid : string) (reason feedback : option string) :
  ((forall s, In s (subscriptions db) -> userId s = uid ->
              status s <> st_active) ->
   SubscriptionService.cancelSubscription provider now db uid reason feedback
   = (Err (Api (ApiError.notFound "No active subscription found")), db))
  /\
  (forall s,
     Subscription.findOne (SubscriptionService.activeOf uid)
       (subscriptions db) = Some s ->
     SubscriptionService.cancelAtProvider provider (paymentDetails s)
     = Ok tt ->
     exists s' db',
       SubscriptionService.cancelSubscription provider now db uid
         reason feedback = (Ok s', db')
       /\ status s' = st_cancelled
       /\ cancellation s' = Some (mkCancellation now reason feedback)
       /\ plan s' = plan s
       /\ features s' = features s
       /\ In s' (subscriptions db')
       /\ s' = set_cancellation (Some (mkCancellation now reason feedback))
                 (set_status st_cancelled s)
       /\ _id s' = _id s
       /\ userId s' = uid
       /\ subscriptions db' = Subscription.write s' (subscriptions db)
       /\ (forall u, users db !! uid = Some u ->
             exists u',
               users db' !! uid = Some u'
               /\ role u' = role_free
               /\ us_status (subscription u') = us_cancelled
               /\ usage u' = usage u)
       /\ (users db !! uid = None -> users db' = users db)
       /\ (forall other, other <> uid ->
             users db' !! other = users db !! other)).
Proof.
  split.
  - intros Hnone. apply cancelSubscription_none.
    apply findOne_no_match. intros s Hin.
    unfold SubscriptionService.activeOf.
    destruct (String.eqb_spec (userId s) uid) as [Hu|_]; [|reflexivity].
    simpl. destruct (Status_eqb (status s) st_active) eqn:Hst;
      [|reflexivity].
    apply Status_eqb_eq in Hst. now destruct (Hnone s Hin Hu).
  - intros s Hfind Hprov.
    pose proof (findOne_matches _ _ _ Hfind) as [_ Hq].
    unfold SubscriptionService.activeOf in Hq.
    apply andb_true_iff in Hq as [Huid _]. apply String.eqb_eq in Huid.
    unfold SubscriptionService.cancelSubscription.
    rewrite Hfind, Hprov.
    unfold Subscription.save. rewrite preSave_loaded.
    eexists _, _. split; [reflexivity|].
    repeat split; try reflexivity.
    + apply In_write.
    + exact Huid.
    + intros u Hu. simpl. rewrite Hu. eexists. split.
      * apply lookup_insert_eq.
      * repeat split.
    + intros Hu. simpl. now rewrite Hu.
    + intros other Hne. simpl.
      destruct (users db !! uid); [|reflexivity].
      now apply lookup_insert_ne.
Qed.

End Cancellation.

Section CancellationExamples.

Lemma cancelSubscription_needs_active_witness :
  let pending := Sample.dbOf [Sample.proPending]
                   (Sample.userWith role_free 0 0) in
  let active := Sample.dbOf [Sample.proActive]
                  (Sample.userWith role_pro 0 0) in
  SubscriptionService.cancelSubscription Sample.providerOk Sample.mar10
    pending "user1" None None
  = (Err (Api (ApiError.notFound "No active subscription found")), pending)
  /\ exists s' db',
       SubscriptionService.cancelSubscription Sample.providerOk Sample.mar10
         active "user1" (Some "price") None = (Ok s', db')
       /\ status s' = st_cancelled
       /\ features s' = features Sample.proActive
       /\ map status (subscriptions db') = [st_cancelled].
Proof.
  intros pending active. split.
  - apply (cancelSubscription_needs_active Sample.providerOk Sample.mar10
             pending "user1" None None).
    simpl. intros s [<-|[]] _. discriminate.
  - destruct (cancelSubscription_needs_active Sample.providerOk Sample.mar10
                active "user1" (Some "price") None) as [_ H].
    destruct (H Sample.proActive eq_refl eq_refl)
      as (s' & db' & Hc & Hst & _ & _ & Hf & _ & Hs' & _ & _ & Hcol & _).
    exists s', db'. repeat split; try assumption.
    rewrite Hcol, Hs'. reflexivity.
Defined.

(** C6, as the spec states it, fails on the error: cancelling while the
    subscription is pending throws the 404 not-found error, the very error
    thrown for a user who has no subscription at all; no error for an
    illegal transition exists. *)
Lemma cancel_pending_is_not_found :
  let pending := Sample.dbOf [Sample.proPending]
                   (Sample.userWith role_free 0 0) in
  let nothing := Sample.dbOf [] (Sample.userWith role_free 0 0) in
  status Sample.proPending = st_pending
  /\ SubscriptionService.cancelSubscription Sample.providerOk Sample.mar10
       pending "user1" None None
     = (Err (Api (mkApiError "No active subscription found" 404)), pending)
  /\ SubscriptionService.cancelSubscription Sample.providerOk Sample.mar10
       nothing "user1" None None
     = (Err (Api (mkApiError "No active subscription found" 404)), nothing).
Proof. repeat split. Qed.

End CancellationExamples.

(** ** Provider events *)

Section Webhook.

Implicit Types (db : Db) (event : WebhookEvent).

(** C3, as the code has it. [handleWebhookEvent] acts on one event type
    only: for [checkout.session.completed] it runs [activateSubscription]
    on the subscription named in the session's metadata, whatever status
    that subscription has, and fails as that call fails when there is no
    such subscription. For [invoice.payment_succeeded],
    [invoice.payment_failed] and [customer.subscription.deleted] it
    returns with the database as it found it: no renewal is recorded and
    nothing is cancelled. *)
Theorem handleWebhookEvent_mapping (db : Db) (event : WebhookEvent) :
  (ev_type event = "checkout.session.completed" ->
     snd (SubscriptionService.handleWebhookEvent db event)
     = snd (SubscriptionService.activateSubscription db
              (ev_metadata_subscriptionId event) (ev_subscription event))
     /\ (forall s,
           Subscription.findById (ev_metadata_subscriptionId event)
             (subscriptions db) = Some s ->
           exists s',
             fst (SubscriptionService.handleWebhookEvent db event) = Ok tt
             /\ Subscription.findById (ev_metadata_subscriptionId event)
                  (subscriptions
                     (snd (SubscriptionService.handleWebhookEvent db event)))
                = Some s'
             /\ status s' = st_active
             /\ stripeSubscriptionId (paymentDetails s')
                = Some (ev_subscription event)
             /\ features s' = features s)
     /\ (Subscription.findById (ev_metadata_subscriptionId event)
           (subscriptions db) = None ->
         SubscriptionService.handleWebhookEvent db event
         = (Err (Api (ApiError.notFound "Subscription not found")), db)))
  /\
  (ev_type event = "invoice.payment_succeeded"
   \/ ev_type event = "invoice.payment_failed"
   \/ ev_type event = "customer.subscription.deleted" ->
     SubscriptionService.handleWebhookEvent db event = (Ok tt, db)).
Proof.
  unfold SubscriptionService.handleWebhookEvent. split.
  - intros ->. simpl. split; [|split].
    + now destruct (SubscriptionService.activateSubscription _ _ _)
        as [[?|?] ?].
    + intros s Hfind.
      destruct (activateSubscription_found db _ (ev_subscription event) s Hfind)
        as (s' & users' & -> & Hs' & _).
      exists s'. simpl. split; [reflexivity|]. split.
      * pose proof (findById_id _ _ _ Hfind) as Hid. rewrite <- Hid.
        apply findById_write; [now rewrite Hid | now subst s'].
      * now subst s'.
    + intros Hnone. now rewrite activateSubscription_missing.
  - intros [-> | [-> | ->]]; reflexivity.
Qed.

Lemma handleWebhookEvent_mapping_witness :
  let db := Sample.dbOf [Sample.proPending] (Sample.userWith role_free 0 0) in
  (exists s',
     fst (SubscriptionService.handleWebhookEvent db
            (Sample.event "checkout.session.completed")) = Ok tt
     /\ Subscription.findById "sub1"
          (subscriptions
             (snd (SubscriptionService.handleWebhookEvent db
                     (Sample.event "checkout.session.completed"))))
        = Some s'
     /\ status s' = st_active)
  /\ SubscriptionService.handleWebhookEvent db
       (Sample.event "invoice.payment_failed") = (Ok tt, db).
Proof.
  intros db. split.
  - destruct (handleWebhookEvent_mapping db
                (Sample.event "checkout.session.completed")) as [H _].
    destruct (H eq_refl) as (_ & Hfound & _).
    destruct (Hfound Sample.proPending eq_refl)
      as (s' & Hok & Hfind & Hst & _).
    exists s'. repeat split; assumption.
  - apply (handleWebhookEvent_mapping db
             (Sample.event "invoice.payment_failed")).
    right. left. reflexivity.
Defined.

(** C3, as the spec states it, fails: with an active subscription that
    has no renewal on record, a succeeded invoice, a failed invoice and a
    deleted provider subscription each leave the stored subscription as it
    was, active and without renewals. *)
Lemma webhook_records_no_renewal_and_cancels_nothing :
  let db := Sample.dbOf [Sample.proActive] (Sample.userWith role_pro 0 0) in
  let after (type : string) :=
    Subscription.findById "sub1"
      (subscriptions
         (snd (SubscriptionService.handleWebhookEvent db
                 (Sample.event type)))) in
  renewals Sample.proActive = [] /\ status Sample.proActive = st_active
  /\ after "invoice.payment_succeeded" = Some Sample.proActive
  /\ after "invoice.payment_failed" = Some Sample.proActive
  /\ after "customer.subscription.deleted" = Some Sample.proActive.
Proof. repeat split. Qed.

End Webhook.

(** ** Two requests racing for the last use *)

Section Racing.

Implicit Types (db : Db) (s : ISubscription).

(** The increment of a monthly counted feature is found by the next
    query, one use higher. *)
Lemma incrementFeatureUsage_monthly db uid s name m :
  Subscription.findOne (SubscriptionService.ofUser uid)
    (subscriptions db) = Some s ->
  Subscription.feature (features s) name = Js.Own (Subscription.VMonthly m) ->
  exists s1,
    SubscriptionService.incrementFeatureUsage db uid name
    = (Ok tt, mkDb (Subscription.write s1 (subscriptions db)) (users db))
    /\ Subscription.findOne (SubscriptionService.ofUser uid)
         (Subscription.write s1 (subscriptions db)) = Some s1
    /\ Subscription.feature (features s1) name
       = Js.Own (Subscription.VMonthly (Subscription.bumpMonthly m)).
Proof.
  intros Hfind Hf.
  pose proof (findOne_matches _ _ _ Hfind) as [_ Hq].
  unfold SubscriptionService.incrementFeatureUsage,
    Subscription.incrementUsage.
  rewrite Hfind. unfold Subscription.bumpUsed.
  destruct (feature_monthly _ _ _ Hf) as [[-> ->]|[[-> ->]|[-> ->]]]; simpl;
    (eexists; split; [reflexivity|]; split;
     [apply (findOne_write _ _ s); [assumption|exact Hq|reflexivity]
     |reflexivity]).
Qed.

(** C4, as the code has it. When the two requests run one after the
    other, the first is allowed and charged and the second is refused.
    Nothing makes the check and the increment one step, so other
    schedules of the same four calls are not covered. *)
Theorem sequential_requests_one_success
    (db : Db) (uid name : string) (s : ISubscription) (m : MonthlyFeature)
    (Hfind : Subscription.findOne (SubscriptionService.ofUser uid)
               (subscriptions db) = Some s)
    (Hfeature : Subscription.feature (features s) name
                = Js.Own (Subscription.VMonthly m))
    (Henabled : m_enabled m = true)
    (Hlimit : monthlyLimit m = 1%Z)
    (Hused : m_used m = 0%N) :
  let w := Race.run uid name [Race.A; Race.A; Race.B; Race.B] db in
  Race.seen (Race.reqA w) = Some true
  /\ Race.seen (Race.reqB w) = Some false
  /\ Race.finished (Race.reqA w) = true
  /\ Race.finished (Race.reqB w) = true
  /\ Race.successes w = 1.
Proof.
  assert (Hcheck0 : SubscriptionService.checkFeatureAccess db uid name
                    = Ok (mkAccess true (Some (Js.Number 1)) (Some 0%N) None)).
  { rewrite (checkFeatureAccess_monthly db uid s name m Hfind Hfeature Henabled)
      by (rewrite Hlimit; discriminate).
    now rewrite Hlimit, Hused. }
  destruct (incrementFeatureUsage_monthly db uid s name m Hfind Hfeature)
    as (s1 & Hinc & Hfind1 & Hfeature1).
  set (db1 := mkDb (Subscription.write s1 (subscriptions db)) (users db)).
  assert (Hcheck1 : SubscriptionService.checkFeatureAccess db1 uid name
                    = Ok (mkAccess false (Some (Js.Number 1)) (Some 1%N)
                            (Some
                               "Monthly limit reached. Upgrade your plan."))).
  { rewrite (checkFeatureAccess_monthly db1 uid s1 name
               (Subscription.bumpMonthly m) Hfind1 Hfeature1);
      simpl; rewrite ?Hlimit, ?Hused; try assumption; try discriminate.
    reflexivity. }
  set (checked := Race.mkRequest (Some true) false).
  set (charged := Race.mkRequest (Some true) true).
  set (refused := Race.mkRequest (Some false) false).
  assert (H1 : Race.step uid name (Race.mkWorld Race.fresh Race.fresh db)
                 Race.A = Race.mkWorld checked Race.fresh db).
  { unfold Race.step, Race.advance.
    cbn [Race.reqA Race.reqB Race.store Race.seen Race.fresh].
    now rewrite Hcheck0. }
  assert (H2 : Race.step uid name (Race.mkWorld checked Race.fresh db)
                 Race.A = Race.mkWorld charged Race.fresh db1).
  { unfold Race.step, Race.advance.
    cbn [Race.reqA Race.reqB Race.store Race.seen Race.charged checked].
    now rewrite Hinc. }
  assert (H3 : Race.step uid name (Race.mkWorld charged Race.fresh db1)
                 Race.B = Race.mkWorld charged refused db1).
  { unfold Race.step, Race.advance.
    cbn [Race.reqA Race.reqB Race.store Race.seen Race.fresh].
    now rewrite Hcheck1. }
  assert (H4 : Race.step uid name (Race.mkWorld charged refused db1)
                 Race.B = Race.mkWorld charged refused db1) by reflexivity.
  unfold Race.run. cbn [fold_left]. rewrite H1, H2, H3, H4.
  repeat split.
Qed.

Lemma sequential_requests_one_success_witness :
  let db := Sample.dbOf [Sample.freeActive] (Sample.userWith role_free 0 0) in
  let w := Race.run "user1" "interviews"
             [Race.A; Race.A; Race.B; Race.B] db in
  Race.seen (Race.reqA w) = Some true
  /\ Race.seen (Race.reqB w) = Some false
  /\ Race.finished (Race.reqA w) = true
  /\ Race.finished (Race.reqB w) = true
  /\ Race.successes w = 1.
Proof.
  apply (sequential_requests_one_success
           (Sample.dbOf [Sample.freeActive] (Sample.userWith role_free 0 0))
           "user1" "interviews" Sample.freeActive (mkMonthly true 1 0));
    reflexivity.
Defined.

(** C4, as the spec states it, fails: with one interview a month and none
    used, the schedule in which both requests check before either
    increments answers [hasAccess = true] to both, and the counter ends at
    2 against a limit of 1. *)
Lemma interleaved_requests_both_succeed :
  let db := Sample.dbOf [Sample.freeActive] (Sample.userWith role_free 0 0) in
  let w := Race.run "user1" "interviews"
             [Race.A; Race.B; Race.A; Race.B] db in
  monthlyLimit (interviews (features Sample.freeActive)) = 1%Z
  /\ m_used (interviews (features Sample.freeActive)) = 0%N
  /\ Race.seen (Race.reqA w) = Some true
  /\ Race.seen (Race.reqB w) = Some true
  /\ Race.finished (Race.reqA w) = true
  /\ Race.finished (Race.reqB w) = true
  /\ Race.successes w = 2
  /\ (m_used ∘ interviews ∘ features)
       <$> Subscription.findById "sub1" (subscriptions (Race.store w))
     = Some 2%N.
Proof. repeat split. Qed.

End Racing.

(** * Further properties of the models and services *)

(** ** Features of a subscription *)

Section FeatureMethods.

Implicit Types (s : ISubscription) (f : Features) (col : list ISubscription).

(** [isFeatureAvailable] answers true exactly for the six features that
    are objects, when their [enabled] is true. The two plain flags,
    [prioritySupport] and [customBranding], are answered false even on a
    plan that has them, and so is every other name. *)
Theorem isFeatureAvailable_exactly s name :
  (Subscription.isFeatureAvailable s name = true <->
     (name = "resumeAnalysis" /\ m_enabled (resumeAnalysis (features s)) = true)
     \/ (name = "interviews" /\ m_enabled (interviews (features s)) = true)
     \/ (name = "jobMatches" /\ w_enabled (jobMatches (features s)) = true)
     \/ (name = "roadmaps" /\ r_enabled (roadmaps (features s)) = true)
     \/ (name = "linkedInReview"
         /\ m_enabled (linkedInReview (features s)) = true)
     \/ (name = "apiAccess" /\ a_enabled (apiAccess (features s)) = true))
  /\ Subscription.isFeatureAvailable s "prioritySupport" = false
  /\ Subscription.isFeatureAvailable s "customBranding" = false.
Proof.
  split; [|split; reflexivity].
  unfold Subscription.isFeatureAvailable, Subscription.feature, Js.get,
    Subscription.ownFeatures. simpl.
  repeat match goal with
  | |- context [String.eqb ?n ?k] =>
      is_var n; destruct (String.eqb_spec n k) as [->|?]; simpl
  end;
  try match goal with
      | |- context [Js.objectPrototype ?n] =>
          destruct (Js.objectPrototype n) as [[]|]; simpl
      end;
  (split;
   [ intros H; try discriminate H;
     repeat first [ left; split; [reflexivity|exact H]
                  | split; [reflexivity|exact H]
                  | right ]
   | intros H; decompose [and or] H; congruence ]).
Qed.

Lemma write_same_id a b col :
  _id a = _id b ->
  Subscription.write b (Subscription.write a col) = Subscription.write b col.
Proof.
  intros Hid. induction col as [|d rest IH]; simpl.
  - now rewrite Hid, String.eqb_refl.
  - destruct (String.eqb (_id d) (_id a)) eqn:Hd; rewrite Hid in Hd; simpl.
    + now rewrite Hid, String.eqb_refl, Hd.
    + now rewrite Hd, IH.
Qed.

(** The monthly and the weekly reset, run one after the other on a
    document, zero its four counters and change nothing else, in either
    order; on a subscription that has the shape of its plan the result is
    the plan's template. *)
Theorem resets_zero_the_counters s col :
  let '(s1, col1) := Subscription.resetMonthlyUsage s col in
  let '(s2, col2) := Subscription.resetWeeklyUsage s1 col1 in
  let '(t1, dol1) := Subscription.resetWeeklyUsage s col in
  let '(t2, dol2) := Subscription.resetMonthlyUsage t1 dol1 in
  s2 = set_features (Shape.zeroUsed (features s)) s
  /\ col2 = Subscription.write s2 col
  /\ t2 = s2 /\ dol2 = col2
  /\ w_used (jobMatches (features s1)) = w_used (jobMatches (features s))
  /\ m_used (resumeAnalysis (features t1))
     = m_used (resumeAnalysis (features s))
  /\ (Shape.ofPlan s -> features s2 = Subscription.planFeatures (plan s)).
Proof.
  unfold Subscription.resetMonthlyUsage, Subscription.resetWeeklyUsage,
    Subscription.save. rewrite !preSave_loaded.
  repeat split; try (rewrite !write_same_id by reflexivity; reflexivity).
  intros H. exact H.
Qed.

End FeatureMethods.

Section ResetsExample.

Lemma resets_zero_the_counters_witness :
  let col := [Sample.proActive] in
  let m := Subscription.resetMonthlyUsage Sample.proActive col in
  let w := Subscription.resetWeeklyUsage (fst m) (snd m) in
  Shape.ofPlan Sample.proActive
  /\ features (fst w) = Subscription.planFeatures plan_pro.
Proof.
  intros col m w.
  assert (Hshape : Shape.ofPlan Sample.proActive) by reflexivity.
  split; [exact Hshape|].
  pose proof (resets_zero_the_counters Sample.proActive col) as H.
  destruct H as (_ & _ & _ & _ & _ & _ & H).
  exact (H Hshape).
Defined.

End ResetsExample.

(** ** Charging a use *)

Section Counting.

(** Up to [MAX_SAFE_INTEGER] the increment of a counter is exact. *)
Lemma plusOne_exact n :
  (n <= Js.MAX_SAFE_INTEGER)%N -> Js.plusOne n = (n + 1)%N.
Proof.
  unfold Js.MAX_SAFE_INTEGER, Js.plusOne, Js.round. intros Hn.
  destruct (N.ltb_spec (n + 1) (2 ^ 53)) as [_|Hge]; [reflexivity|].
  assert (Hmax : n = (2 ^ 53 - 1)%N) by lia.
  subst n. vm_compute. reflexivity.
Qed.

(** At 2^53 it changes nothing. *)
Lemma plusOne_stops :
  Js.plusOne (Js.MAX_SAFE_INTEGER + 1) = (Js.MAX_SAFE_INTEGER + 1)%N.
Proof. vm_compute. reflexivity. Qed.

End Counting.

Section Charging.

Implicit Types (db : Db) (s : ISubscription) (f : Features).

Lemma feature_after_bump f f' name other :
  Subscription.bumpUsed f name = Some f' ->
  other <> name ->
  Subscription.feature f' other = Subscription.feature f other.
Proof.
  unfold Subscription.bumpUsed, Subscription.feature, Js.get,
    Subscription.ownFeatures.
  repeat match goal with
  | |- context [String.eqb name ?k] =>
      destruct (String.eqb_spec name k) as [?|?]
  end; try discriminate; intros [= <-] Hne; subst; simpl;
  repeat match goal with
  | |- context [String.eqb other ?k] =>
      destruct (String.eqb_spec other k) as [?|?]
  end; congruence.
Qed.

Lemma usedOf_after_bump f f' name :
  Subscription.bumpUsed f name = Some f' ->
  Subscription.usedOf (Subscription.feature f' name)
  = Js.plusOne <$> Subscription.usedOf (Subscription.feature f name).
Proof.
  unfold Subscription.bumpUsed, Subscription.feature, Js.get,
    Subscription.ownFeatures.
  repeat match goal with
  | |- context [String.eqb name ?k] =>
      destruct (String.eqb_spec name k) as [?|?]
  end; try discriminate; intros [= <-]; subst; reflexivity.
Qed.

Lemma zeroUsed_after_bump f f' name :
  Subscription.bumpUsed f name = Some f' ->
  Shape.zeroUsed f' = Shape.zeroUsed f.
Proof.
  unfold Subscription.bumpUsed.
  repeat match goal with
  | |- context [String.eqb name ?k] =>
      destruct (String.eqb_spec name k) as [?|?]
  end; try discriminate; intros [= <-]; reflexivity.
Qed.

Lemma bumpUsed_none_usedOf f name :
  Subscription.bumpUsed f name = None ->
  Subscription.usedOf (Subscription.feature f name) = None.
Proof.
  intros H. apply bumpUsed_test in H.
  destruct (Subscription.feature f name) as [[]| |]; simpl in *;
    try reflexivity; discriminate.
Qed.

(** With a subscription, [incrementFeatureUsage] increments the [used] of
    the named feature, whether or not the feature is enabled and whatever
    its limit: a [used] of at most [MAX_SAFE_INTEGER] becomes exactly one
    higher, and a [used] of 2^53 stays as it is. Every other feature, every
    limit and flag, the status, the plan and the users stay as they were.
    Under a name that has no [used] it writes nothing. *)
Theorem incrementFeatureUsage_charges_one
    (db : Db) (uid name : string) (s : ISubscription)
    (Hfind : Subscription.findOne (SubscriptionService.ofUser uid)
               (subscriptions db) = Some s) :
  exists s',
    fst (SubscriptionService.incrementFeatureUsage db uid name) = Ok tt
    /\ Subscription.findOne (SubscriptionService.ofUser uid)
         (subscriptions
            (snd (SubscriptionService.incrementFeatureUsage db uid name)))
       = Some s'
    /\ users (snd (SubscriptionService.incrementFeatureUsage db uid name))
       = users db
    /\ (forall used,
          Subscription.usedOf (Subscription.feature (features s) name)
          = Some used ->
          ((used <= Js.MAX_SAFE_INTEGER)%N ->
           Subscription.usedOf (Subscription.feature (features s') name)
           = Some (used + 1)%N)
          /\ (used = (Js.MAX_SAFE_INTEGER + 1)%N ->
              Subscription.usedOf (Subscription.feature (features s') name)
              = Some used))
    /\ (forall other, other <> name ->
          Subscription.feature (features s') other
          = Subscription.feature (features s) other)
    /\ Shape.zeroUsed (features s') = Shape.zeroUsed (features s)
    /\ status s' = status s /\ plan s' = plan s
    /\ (Subscription.usedOf (Subscription.feature (features s) name) = None ->
        SubscriptionService.incrementFeatureUsage db uid name = (Ok tt, db)).
Proof.
  pose proof (findOne_matches _ _ _ Hfind) as [_ Hq].
  unfold SubscriptionService.incrementFeatureUsage,
    Subscription.incrementUsage. rewrite Hfind.
  destruct (Subscription.bumpUsed (features s) name) as [f'|] eqn:Hb.
  - exists (set_features f' s). cbn [fst snd subscriptions users].
    unfold Subscription.save. rewrite preSave_loaded. cbn [fst snd].
    split; [reflexivity|]. split.
    { apply (findOne_write _ _ s); [assumption|exact Hq|reflexivity]. }
    split; [reflexivity|]. split.
    { intros used Hused. cbn [features set_features].
      rewrite (usedOf_after_bump _ _ _ Hb), Hused.
      cbn [fmap option_fmap option_map].
      split; [intros Hsafe; now rewrite plusOne_exact
             |intros ->; now rewrite plusOne_stops]. }
    split; [intros other Hne; now apply (feature_after_bump _ _ name)|].
    split; [now apply (zeroUsed_after_bump _ _ name)|].
    split; [reflexivity|]. split; [reflexivity|].
    intros Hnone. exfalso.
    assert (Hn : Subscription.bumpUsed (features s) name = None).
    { apply bumpUsed_test. rewrite Hnone. apply andb_false_iff. right.
      apply bool_decide_eq_false_2. intros [x Hx]. discriminate Hx. }
    rewrite Hb in Hn. discriminate Hn.
  - exists s. cbn [fst snd subscriptions users].
    split; [reflexivity|]. split; [assumption|]. split; [reflexivity|].
    split.
    { intros used Hused. rewrite (bumpUsed_none_usedOf _ _ Hb) in Hused.
      discriminate Hused. }
    repeat split. now destruct db.
Qed.

Lemma incrementFeatureUsage_charges_one_witness :
  let db := Sample.dbOf [Sample.proActive] (Sample.userWith role_pro 0 0) in
  exists s',
    Subscription.findOne (SubscriptionService.ofUser "user1")
      (subscriptions
         (snd (SubscriptionService.incrementFeatureUsage db "user1"
                 "jobMatches"))) = Some s'
    /\ Subscription.usedOf (Subscription.feature (features s') "jobMatches")
       = Some 11%N.
Proof.
  intros db.
  destruct (incrementFeatureUsage_charges_one db "user1" "jobMatches"
              Sample.proActive eq_refl)
    as (s' & _ & Hfind & _ & Hused & _).
  exists s'. split; [exact Hfind|].
  destruct (Hused 10%N eq_refl) as [Hexact _].
  apply Hexact. vm_compute. discriminate.
Defined.

End Charging.

(** ** A quota, use after use *)

Section Quota.

Implicit Types (db : Db) (s : ISubscription).

Lemma charged_monthly db uid name s m n :
  Subscription.findOne (SubscriptionService.ofUser uid)
    (subscriptions db) = Some s ->
  Subscription.feature (features s) name = Js.Own (Subscription.VMonthly m) ->
  (m_used m + N.of_nat n <= Js.MAX_SAFE_INTEGER)%N ->
  exists sn,
    Subscription.findOne (SubscriptionService.ofUser uid)
      (subscriptions
         (Nat.iter n
            (fun d =>
               snd (SubscriptionService.incrementFeatureUsage d uid name))
            db)) = Some sn
    /\ Subscription.feature (features sn) name
       = Js.Own (Subscription.VMonthly
                   (mkMonthly (m_enabled m) (monthlyLimit m)
                      (m_used m + N.of_nat n))).
Proof.
  intros Hfind Hf. induction n as [|n IH]; intros Hsafe.
  - exists s. split; [assumption|]. rewrite Hf. destruct m. simpl.
    now rewrite N.add_0_r.
  - destruct IH as [sn [Hfn Hsn]]; [lia|].
    destruct (incrementFeatureUsage_monthly _ _ _ _ _ Hfn Hsn)
      as (s1 & Hinc & Hfind1 & Hf1).
    exists s1. rewrite Nat.iter_succ, Hinc. cbn [snd].
    split; [assumption|]. rewrite Hf1. unfold Subscription.bumpMonthly.
    cbn [m_enabled monthlyLimit m_used]. rewrite plusOne_exact by lia.
    do 3 f_equal. lia.
Qed.

(** A monthly counted feature that is enabled with a limit other than -1:
    after [n] charged uses that leave the count a safe integer, the check
    reports [used + n] against the limit, and grants access exactly while
    that is below the limit. Nothing but the count stands between a user
    and the next use. *)
Theorem monthly_quota_after_n_uses
    (db : Db) (uid name : string) (s : ISubscription) (m : MonthlyFeature)
    (n : nat)
    (Hfind : Subscription.findOne (SubscriptionService.ofUser uid)
               (subscriptions db) = Some s)
    (Hfeature : Subscription.feature (features s) name
                = Js.Own (Subscription.VMonthly m))
    (Henabled : m_enabled m = true)
    (Hlimit : monthlyLimit m <> (-1)%Z)
    (Hsafe : (m_used m + N.of_nat n <= Js.MAX_SAFE_INTEGER)%N) :
  let used := (m_used m + N.of_nat n)%N in
  SubscriptionService.checkFeatureAccess
    (Nat.iter n
       (fun d => snd (SubscriptionService.incrementFeatureUsage d uid name))
       db) uid name
  = Ok (mkAccess (Z.of_N used <? monthlyLimit m)%Z
          (Some (Js.Number (monthlyLimit m))) (Some used)
          (if (monthlyLimit m <=? Z.of_N used)%Z
           then Some "Monthly limit reached. Upgrade your plan."
           else None)).
Proof.
  destruct (charged_monthly db uid name s m n Hfind Hfeature Hsafe)
    as (sn & Hfn & Hsn).
  now rewrite (checkFeatureAccess_monthly _ _ _ _ _ Hfn Hsn Henabled Hlimit).
Qed.

End Quota.

Section QuotaExample.

Lemma monthly_quota_after_n_uses_witness :
  let db := Sample.dbOf [Sample.freeActive] (Sample.userWith role_free 0 0) in
  SubscriptionService.checkFeatureAccess
    (Nat.iter 3
       (fun d =>
          snd (SubscriptionService.incrementFeatureUsage d "user1"
                 "resumeAnalysis")) db) "user1" "resumeAnalysis"
  = Ok (mkAccess false (Some (Js.Number 3)) (Some 3%N)
          (Some "Monthly limit reached. Upgrade your plan.")).
Proof.
  intros db.
  apply (monthly_quota_after_n_uses db "user1" "resumeAnalysis"
           Sample.freeActive (mkMonthly true 3 0) 3);
    [reflexivity | reflexivity | reflexivity | discriminate
    | vm_compute; discriminate].
Defined.

End QuotaExample.

(** ** Charging a user who has no subscription *)

Section FreeCharging.

Implicit Types (db : Db).

Lemma length_append (a c : string) :
  String.length (a ++ c) = (String.length a + String.length c)%nat.
Proof.
  induction a as [|x a IH]; simpl; [reflexivity | now rewrite IH].
Qed.

Lemma append_cancel_r (a b c : string) : a ++ c = b ++ c -> a = b.
Proof.
  revert b. induction a as [|x a IH]; intros [|y b] H; simpl in H.
  - reflexivity.
  - apply (f_equal String.length) in H.
    rewrite ?length_append in H. simpl in H. rewrite ?length_append in H. lia.
  - apply (f_equal String.length) in H.
    rewrite ?length_append in H. simpl in H. rewrite ?length_append in H. lia.
  - injection H as -> H. f_equal. now apply IH.
Qed.

(** Without a subscription, [incrementFeatureUsage] counts a use only
    under the names [resumeAnalysis] and [interviewSessions]: under every
    other name, [interviews], [jobMatches] and [linkedInReview] among them,
    it returns normally and writes nothing. *)
Theorem free_increment_counts_two_names_only
    (db : Db) (uid name : string)
    (Hnone : Subscription.findOne (SubscriptionService.ofUser uid)
               (subscriptions db) = None)
    (Hresume : name <> "resumeAnalysis")
    (Hsessions : name <> "interviewSessions") :
  SubscriptionService.incrementFeatureUsage db uid name = (Ok tt, db).
Proof.
  unfold SubscriptionService.incrementFeatureUsage. rewrite Hnone.
  destruct (users db !! uid) as [user|]; [|reflexivity].
  unfold User.bumpCounter.
  destruct (String.eqb_spec (name ++ "Count") "resumeAnalysisCount") as [H|_].
  { exfalso. apply Hresume.
    now apply (append_cancel_r name "resumeAnalysis" "Count"). }
  destruct (String.eqb_spec (name ++ "Count") "interviewSessionsCount")
    as [H|_]; [|reflexivity].
  exfalso. apply Hsessions.
  now apply (append_cancel_r name "interviewSessions" "Count").
Qed.

Lemma free_increment_counts_two_names_only_witness :
  let db := Sample.dbOf [] (Sample.userWith role_free 0 0) in
  SubscriptionService.incrementFeatureUsage db "user1" "interviews"
  = (Ok tt, db).
Proof.
  intros db.
  apply (free_increment_counts_two_names_only db "user1" "interviews");
    [reflexivity | discriminate | discriminate].
Defined.

(** The users after [n] calls of [incrementFeatureUsage] for
    [resumeAnalysis]. *)
Lemma free_charged_resumeAnalysis db uid u n :
  Subscription.findOne (SubscriptionService.ofUser uid)
    (subscriptions db) = None ->
  users db !! uid = Some u ->
  (resumeAnalysisCount (usage u) + N.of_nat n <= Js.MAX_SAFE_INTEGER)%N ->
  Nat.iter n
    (fun d =>
       snd (SubscriptionService.incrementFeatureUsage d uid "resumeAnalysis"))
    db
  = mkDb (subscriptions db)
      (<[ uid := mkUser (role u) (subscription u)
                   (mkUsage (resumeAnalysisCount (usage u) + N.of_nat n)
                      (interviewSessionsCount (usage u))
                      (lastResetDate (usage u))) ]> (users db)).
Proof.
  intros Hnone Hu. induction n as [|n IH]; intros Hsafe.
  - simpl. rewrite N.add_0_r. destruct db as [col us], u as [r sb [c1 c2 d]].
    simpl in *. f_equal. symmetry. now apply insert_id.
  - rewrite Nat.iter_succ, IH by lia.
    unfold SubscriptionService.incrementFeatureUsage.
    cbn [subscriptions users]. rewrite Hnone, lookup_insert_eq.
    replace (User.bumpCounter _ ("resumeAnalysis" ++ "Count"))
      with (Some (mkUsage
                    (Js.plusOne (resumeAnalysisCount (usage u) + N.of_nat n))
                    (interviewSessionsCount (usage u))
                    (lastResetDate (usage u)))) by reflexivity.
    rewrite plusOne_exact by lia.
    cbn [snd role subscription]. rewrite insert_insert_eq.
    do 4 f_equal. lia.
Qed.

(** A user without a subscription: after [n] charged resume analyses that
    leave the count a safe integer, the check reports the stored count, [n]
    higher, against the free limit of three, and grants access exactly
    while the count is below three. *)
Theorem free_resumeAnalysis_after_n_uses
    (db : Db) (uid : string) (u : IUser) (n : nat)
    (Hnone : Subscription.findOne (SubscriptionService.ofUser uid)
               (subscriptions db) = None)
    (Huser : users db !! uid = Some u)
    (Hsafe : (resumeAnalysisCount (usage u) + N.of_nat n
              <= Js.MAX_SAFE_INTEGER)%N) :
  let count := (resumeAnalysisCount (usage u) + N.of_nat n)%N in
  SubscriptionService.checkFeatureAccess
    (Nat.iter n
       (fun d =>
          snd (SubscriptionService.incrementFeatureUsage d uid
                 "resumeAnalysis")) db) uid "resumeAnalysis"
  = Ok (mkAccess (count <? 3)%N (Some (Js.Number 3)) (Some count)
          (if (3 <=? count)%N
           then Some "Free tier limit reached. Upgrade to Pro."
           else None)).
Proof.
  rewrite (free_charged_resumeAnalysis db uid u n Hnone Huser Hsafe).
  rewrite (checkFeatureAccess_free_resumeAnalysis _ uid
             (mkUser (role u) (subscription u)
                (mkUsage (resumeAnalysisCount (usage u) + N.of_nat n)
                   (interviewSessionsCount (usage u))
                   (lastResetDate (usage u)))));
    [reflexivity | exact Hnone | apply lookup_insert_eq].
Qed.

Lemma free_resumeAnalysis_after_n_uses_witness :
  let db := Sample.dbOf [] (Sample.userWith role_free 1 0) in
  SubscriptionService.checkFeatureAccess
    (Nat.iter 2
       (fun d =>
          snd (SubscriptionService.incrementFeatureUsage d "user1"
                 "resumeAnalysis")) db) "user1" "resumeAnalysis"
  = Ok (mkAccess false (Some (Js.Number 3)) (Some 3%N)
          (Some "Free tier limit reached. Upgrade to Pro.")).
Proof.
  intros db.
  apply (free_resumeAnalysis_after_n_uses db "user1"
           (Sample.userWith role_free 1 0) 2);
    [reflexivity | reflexivity | vm_compute; discriminate].
Defined.

End FreeCharging.

(** ** The month rollover of the free resume analyses *)

Section MonthRollover.

Implicit Types (u : IUser) (now : Date).

(** For months in the range of [getMonth], the rollover test
    [monthDiff > 0] holds exactly when the month of [now] comes after the
    month of the last reset in the calendar: a later year, or the same year
    and a later month. The day plays no part, so the count is reset on the
    first use of a new month and never twice in one month; a clock that
    reads an earlier month resets nothing. *)
Theorem monthDiff_positive_iff_later_month (now lastReset : Date)
    (Hnow : (0 <= getMonth now <= 11)%Z)
    (Hlast : (0 <= getMonth lastReset <= 11)%Z) :
  (0 < User.monthDiff now lastReset)%Z
  <-> (getFullYear lastReset < getFullYear now)%Z
      \/ (getFullYear now = getFullYear lastReset
          /\ (getMonth lastReset < getMonth now)%Z).
Proof. unfold User.monthDiff. lia. Qed.

Lemma monthDiff_positive_iff_later_month_witness :
  (0 < User.monthDiff (mkDate 2024 1 1 0) (mkDate 2024 0 31 0))%Z
  <-> (2024 < 2024)%Z \/ (2024%Z = 2024%Z /\ (0 < 1)%Z).
Proof.
  apply (monthDiff_positive_iff_later_month
           (mkDate 2024 1 1 0) (mkDate 2024 0 31 0)); simpl; lia.
Defined.

Lemma monthDiff_same now : User.monthDiff now now = 0%Z.
Proof. unfold User.monthDiff. lia. Qed.

(** [canUseResumeAnalysis] allows the analysis exactly when the user has
    pro access, or the month has rolled over, or fewer than three analyses
    are counted. It never raises the count, touches neither the interview
    count, the role nor the user's subscription, and asking again at the
    same moment on the document it left gives the same answer and the same
    document. *)
Theorem canUseResumeAnalysis_answer now u :
  let '(allowed, u') := User.canUseResumeAnalysis now u in
  (allowed = true <->
     User.hasProAccess u = true
     \/ (0 < User.monthDiff now (lastResetDate (usage u)))%Z
     \/ (resumeAnalysisCount (usage u) < 3)%N)
  /\ (resumeAnalysisCount (usage u') <= resumeAnalysisCount (usage u))%N
  /\ interviewSessionsCount (usage u') = interviewSessionsCount (usage u)
  /\ role u' = role u /\ subscription u' = subscription u
  /\ User.canUseResumeAnalysis now u' = (allowed, u').
Proof.
  unfold User.canUseResumeAnalysis.
  destruct (User.hasProAccess u) eqn:Hpro.
  - rewrite Hpro. repeat split; auto; lia.
  - destruct (Z.ltb_spec 0 (User.monthDiff now (lastResetDate (usage u))))
      as [Hlater|Hsame].
    + assert (Hpro' : User.hasProAccess
                        (mkUser (role u) (subscription u)
                           (mkUsage 0 (interviewSessionsCount (usage u)) now))
                      = false) by exact Hpro.
      rewrite Hpro'. cbn [usage lastResetDate resumeAnalysisCount
                          interviewSessionsCount role subscription].
      rewrite monthDiff_same. simpl.
      repeat split; auto; lia.
    + rewrite Hpro.
      destruct (Z.ltb_spec 0 (User.monthDiff now (lastResetDate (usage u))))
        as [Hlater|_]; [lia|].
      repeat split; auto; try lia.
      * intros Hc. apply N.ltb_lt in Hc. auto.
      * intros [Hc|[Hc|Hc]]; [discriminate | lia | now apply N.ltb_lt].
Qed.

End MonthRollover.

(** ** What activation does to the user *)

Section Activation.

Implicit Types (db : Db) (s : ISubscription) (u : IUser).

(** A successful activation leaves the subscription's user with the role
    pro and pro access, whatever the role was before (an admin becomes
    pro) and whatever the plan is; the user's usage counters are kept, and
    no other user is touched. *)
Theorem activation_makes_the_user_pro
    (db : Db) (sid ref : string) (s : ISubscription) (u : IUser)
    (Hfind : Subscription.findById sid (subscriptions db) = Some s)
    (Huser : users db !! userId s = Some u) :
  let db' := snd (SubscriptionService.activateSubscription db sid ref) in
  (exists u',
     users db' !! userId s = Some u'
     /\ role u' = role_pro
     /\ User.hasProAccess u' = true
     /\ User.canUseInterview u' = true
     /\ (forall now, fst (User.canUseResumeAnalysis now u') = true)
     /\ us_status (subscription u') = us_active
     /\ us_plan (subscription u') = plan s
     /\ usage u' = usage u)
  /\ (forall other, other <> userId s ->
        users db' !! other = users db !! other).
Proof.
  destruct (activateSubscription_found db sid ref s Hfind)
    as (s' & users' & Hact & Hs' & Hsome & _).
  rewrite Hact. cbn [snd users]. rewrite (Hsome u Huser). split.
  - eexists. split; [apply lookup_insert_eq|]. repeat split.
  - intros other Hne. now apply lookup_insert_ne.
Qed.

Lemma activation_makes_the_user_pro_witness :
  let db := Sample.dbOf [Sample.proPending] (Sample.userWith role_admin 3 1) in
  let db' :=
    snd (SubscriptionService.activateSubscription db "sub1" "sub_stripe_1") in
  exists u',
    users db' !! "user1" = Some u'
    /\ role u' = role_pro
    /\ usage u' = usage (Sample.userWith role_admin 3 1).
Proof.
  intros db db'.
  destruct (activation_makes_the_user_pro db "sub1" "sub_stripe_1"
              Sample.proPending (Sample.userWith role_admin 3 1)
              eq_refl eq_refl) as [(u' & Hu & Hrole & _ & _ & _ & _ & _ & Hus) _].
  exists u'. repeat split; assumption.
Defined.

End Activation.

(** ** Writing to a collection with unique keys *)

Section UniqueKeys.

Implicit Types (s t : ISubscription) (col : list ISubscription).

Lemma NoDup_map_inj {A B} (f : A -> B) (l : list A) a b :
  List.NoDup (map f l) -> In a l -> In b l -> f a = f b -> a = b.
Proof.
  induction l as [|x l IH]; simpl; [tauto|].
  intros Hnd [<-|Ha] [<-|Hb] Hf; inversion Hnd as [|? ? Hnot Hnd']; subst.
  - reflexivity.
  - exfalso. apply Hnot. rewrite Hf. now apply in_map.
  - exfalso. apply Hnot. rewrite <- Hf. now apply in_map.
  - now apply IH.
Qed.

Lemma findById_unique col s :
  List.NoDup (map _id col) -> In s col ->
  Subscription.findById (_id s) col = Some s.
Proof.
  unfold Subscription.findById, Subscription.findOne.
  induction col as [|d rest IH]; simpl; [tauto|].
  intros Hnd Hin. inversion Hnd as [|? ? Hnot Hnd']; subst.
  destruct (String.eqb_spec (_id d) (_id s)) as [Hid|Hid].
  - destruct Hin as [->|Hin]; [reflexivity|].
    exfalso. apply Hnot. rewrite Hid. now apply in_map.
  - destruct Hin as [->|Hin]; [congruence|]. now apply IH.
Qed.

(** Writing over the first document with an [_id] keeps the keys when the
    owner is kept. *)
Lemma keys_write col s s' :
  Subscription.findById (_id s') col = Some s ->
  userId s' = userId s ->
  Keys.keys (Subscription.write s' col) = Keys.keys col.
Proof.
  unfold Subscription.findById, Subscription.findOne, Keys.keys.
  intros Hfind Huid. induction col as [|d rest IH]; [discriminate|].
  simpl in *. destruct (String.eqb_spec (_id d) (_id s')) as [Hid|Hid].
  - injection Hfind as ->. simpl. now rewrite Huid, Hid.
  - simpl. f_equal. now apply IH.
Qed.

Lemma In_write_other col s s' t :
  Subscription.findById (_id s') col = Some s ->
  In t col -> t <> s -> In t (Subscription.write s' col).
Proof.
  unfold Subscription.findById, Subscription.findOne.
  intros Hfind. induction col as [|d rest IH]; [contradiction|].
  simpl in *. destruct (String.eqb_spec (_id d) (_id s')) as [Hid|Hid].
  - injection Hfind as ->. intros [->|Hin] Hne; [congruence|now right].
  - intros [->|Hin] Hne; [now left|right; now apply IH].
Qed.


Lemma Forall_write (P : ISubscription -> Prop) col s' :
  Forall P col -> P s' -> Forall P (Subscription.write s' col).
Proof.
  intros Hall Hs. induction Hall as [|d rest Hd Hrest IH]; simpl.
  - now constructor.
  - destruct (String.eqb (_id d) (_id s')); constructor; assumption.
Qed.

Lemma unique_of_keys col col' :
  Keys.keys col' = Keys.keys col -> Keys.unique col -> Keys.unique col'.
Proof.
  unfold Keys.unique. intros Hk [Hid Huid].
  assert (Hfst : forall l, map _id l = map fst (Keys.keys l))
    by (intros l; unfold Keys.keys; now rewrite List.map_map).
  assert (Hsnd : forall l, map userId l = map snd (Keys.keys l))
    by (intros l; unfold Keys.keys; now rewrite List.map_map).
  assert (H1 : map _id col' = map _id col) by now rewrite !Hfst, Hk.
  assert (H2 : map userId col' = map userId col) by now rewrite !Hsnd, Hk.
  now rewrite H1, H2.
Qed.


End UniqueKeys.

(** ** What each operation leaves in the database *)

Section Effects.

Variable provider : string -> result Exception unit.

Implicit Types (db : Db) (s : ISubscription).

Lemma activate_effect db sid ref :
  snd (SubscriptionService.activateSubscription db sid ref) = db
  \/ exists s s',
       Subscription.findById sid (subscriptions db) = Some s
       /\ _id s = sid
       /\ s' = set_paymentDetails
                 (set_stripeSubscriptionId (Some ref) (paymentDetails s))
                 (set_status st_active s)
       /\ snd (SubscriptionService.activateSubscription db sid ref)
          = mkDb (Subscription.write s' (subscriptions db))
              match users db !! userId s with
              | Some user =>
                  <[ userId s :=
                       mkUser role_pro
                         (mkUserSubscription us_active (plan s)
                            (Some (startDate s)) (Some (endDate s))
                            (us_stripeCustomerId (subscription user))
                            (Some ref))
                         (usage user) ]> (users db)
              | None => users db
              end.
Proof.
  unfold SubscriptionService.activateSubscription.
  destruct (Subscription.findById sid (subscriptions db)) as [s|] eqn:Hfind;
    [right|now left].
  exists s, (set_paymentDetails
               (set_stripeSubscriptionId (Some ref) (paymentDetails s))
               (set_status st_active s)).
  split; [reflexivity|]. split; [now apply (findById_id _ _ _ Hfind)|].
  split; reflexivity.
Qed.

Lemma cancel_effect now db uid reason feedback :
  snd (SubscriptionService.cancelSubscription provider now db uid
         reason feedback) = db
  \/ exists s s',
       Subscription.findOne (SubscriptionService.activeOf uid)
         (subscriptions db) = Some s
       /\ s' = set_cancellation (Some (mkCancellation now reason feedback))
                 (set_status st_cancelled s)
       /\ snd (SubscriptionService.cancelSubscription provider now db uid
                 reason feedback)
          = mkDb (Subscription.write s' (subscriptions db))
              match users db !! uid with
              | Some user =>
                  <[ uid :=
                       mkUser role_free
                         (mkUserSubscription us_cancelled
                            (us_plan (subscription user))
                            (us_startDate (subscription user))
                            (us_endDate (subscription user))
                            (us_stripeCustomerId (subscription user))
                            (us_stripeSubscriptionId (subscription user)))
                         (usage user) ]> (users db)
              | None => users db
              end.
Proof.
  unfold SubscriptionService.cancelSubscription.
  destruct (Subscription.findOne _ _) as [s|] eqn:Hfind; [|now left].
  destruct (SubscriptionService.cancelAtProvider provider (paymentDetails s));
    [right|now left].
  exists s, (set_cancellation (Some (mkCancellation now reason feedback))
               (set_status st_cancelled s)).
  repeat split.
Qed.

Lemma increment_effect db uid name :
  snd (SubscriptionService.incrementFeatureUsage db uid name) = db
  \/ (exists s f',
        Subscription.findOne (SubscriptionService.ofUser uid)
          (subscriptions db) = Some s
        /\ Subscription.bumpUsed (features s) name = Some f'
        /\ snd (SubscriptionService.incrementFeatureUsage db uid name)
           = mkDb (Subscription.write (set_features f' s) (subscriptions db))
               (users db))
  \/ (exists user g,
        users db !! uid = Some user
        /\ snd (SubscriptionService.incrementFeatureUsage db uid name)
           = mkDb (subscriptions db)
               (<[ uid := mkUser (role user) (subscription user) g ]>
                  (users db))).
Proof.
  unfold SubscriptionService.incrementFeatureUsage,
    Subscription.incrementUsage.
  destruct (Subscription.findOne _ _) as [s|] eqn:Hfind.
  - destruct (Subscription.bumpUsed (features s) name) as [f'|] eqn:Hb.
    + right. left. exists s, f'. repeat split. exact Hb.
    + left. now destruct db.
  - destruct (users db !! uid) as [user|] eqn:Hu; [|now left].
    destruct (User.bumpCounter (usage user) (name ++ "Count")) as [g|];
      [|now left].
    right. right. exists user, g. split; reflexivity.
Qed.

Lemma webhook_effect db event :
  snd (SubscriptionService.handleWebhookEvent db event) = db
  \/ snd (SubscriptionService.handleWebhookEvent db event)
     = snd (SubscriptionService.activateSubscription db
              (ev_metadata_subscriptionId event) (ev_subscription event)).
Proof.
  unfold SubscriptionService.handleWebhookEvent.
  destruct (String.eqb (ev_type event) "checkout.session.completed").
  - right.
    now destruct (SubscriptionService.activateSubscription _ _ _) as [[?|?] ?].
  - left.
    repeat match goal with
    | |- context [if ?b then _ else _] => destruct b
    end; reflexivity.
Qed.

End Effects.

(** ** What every operation keeps *)

Section Invariants.

Variable provider : string -> result Exception unit.

Implicit Types (db : Db) (s : ISubscription).

Lemma kept_refl db : Keys.kept db db.
Proof. now split. Qed.

Lemma dom_users_insert (m : gmap string IUser) uid u u' :
  m !! uid = Some u -> dom (<[ uid := u' ]> m) = dom m.
Proof. intros H. apply dom_insert_lookup_L. eauto. Qed.

Lemma kept_activate db sid ref :
  Keys.kept db (snd (SubscriptionService.activateSubscription db sid ref)).
Proof.
  destruct (activate_effect db sid ref) as [->|(s & s' & Hfind & Hid & -> & ->)];
    [apply kept_refl|].
  split; cbn [subscriptions users].
  - apply (keys_write _ s); [|reflexivity]. cbn [_id set_paymentDetails].
    simpl. now rewrite Hid.
  - destruct (users db !! userId s) eqn:Hu; [|reflexivity].
    now apply (dom_users_insert _ _ i).
Qed.

Lemma kept_cancel db now uid reason feedback :
  List.NoDup (map _id (subscriptions db)) ->
  Keys.kept db
    (snd (SubscriptionService.cancelSubscription provider now db uid
            reason feedback)).
Proof.
  intros Hids.
  destruct (cancel_effect provider now db uid reason feedback)
    as [->|(s & s' & Hfind & -> & ->)]; [apply kept_refl|].
  pose proof (findOne_matches _ _ _ Hfind) as [Hin _].
  split; cbn [subscriptions users].
  - apply (keys_write _ s); [|reflexivity].
    exact (findById_unique _ s Hids Hin).
  - destruct (users db !! uid) eqn:Hu; [|reflexivity].
    now apply (dom_users_insert _ _ i).
Qed.

Lemma kept_increment db uid name :
  List.NoDup (map _id (subscriptions db)) ->
  Keys.kept db (snd (SubscriptionService.incrementFeatureUsage db uid name)).
Proof.
  intros Hids.
  destruct (increment_effect db uid name)
    as [->|[(s & f' & Hfind & Hb & ->)|(user & g & Hu & ->)]];
    [apply kept_refl| |].
  - pose proof (findOne_matches _ _ _ Hfind) as [Hin _].
    split; cbn [subscriptions users]; [|reflexivity].
    apply (keys_write _ s); [|reflexivity].
    exact (findById_unique _ s Hids Hin).
  - split; cbn [subscriptions users]; [reflexivity|].
    now apply (dom_users_insert _ _ user).
Qed.

(** With unique [_id]s, activation, cancellation, the usage increment and
    the handling of a provider event never delete a subscription or a user,
    never add one, and never give a subscription another [_id] or another
    owner. *)
Theorem operations_keep_documents_and_owners (db : Db)
    (Hids : List.NoDup (map _id (subscriptions db))) :
  (forall sid ref,
     Keys.kept db (snd (SubscriptionService.activateSubscription db sid ref)))
  /\ (forall now uid reason feedback,
        Keys.kept db
          (snd (SubscriptionService.cancelSubscription provider now db uid
                  reason feedback)))
  /\ (forall uid name,
        Keys.kept db
          (snd (SubscriptionService.incrementFeatureUsage db uid name)))
  /\ (forall event,
        Keys.kept db (snd (SubscriptionService.handleWebhookEvent db event))).
Proof.
  split; [intros; apply kept_activate|].
  split; [intros; now apply kept_cancel|].
  split; [intros; now apply kept_increment|].
  intros event. destruct (webhook_effect db event) as [->| ->];
    [apply kept_refl | apply kept_activate].
Qed.

Lemma shape_write col s s' :
  Forall Shape.ofPlan col -> In s col ->
  plan s' = plan s ->
  Shape.zeroUsed (features s') = Shape.zeroUsed (features s) ->
  Forall Shape.ofPlan (Subscription.write s' col).
Proof.
  intros Hall Hin Hplan Hz. apply Forall_write; [assumption|].
  unfold Shape.ofPlan. rewrite Hz, Hplan.
  now apply (proj1 (List.Forall_forall _ _) Hall s).
Qed.

(** When every stored subscription has the shape of its plan, its features
    equal to the plan's template up to the four counters, so it does after
    activation, cancellation, a usage increment, a provider event and either
    reset: the code changes counters, never a limit or a flag. *)
Theorem operations_keep_the_plan_shape (db : Db)
    (Hshape : Forall Shape.ofPlan (subscriptions db)) :
  (forall sid ref,
     Forall Shape.ofPlan
       (subscriptions
          (snd (SubscriptionService.activateSubscription db sid ref))))
  /\ (forall now uid reason feedback,
        Forall Shape.ofPlan
          (subscriptions
             (snd (SubscriptionService.cancelSubscription provider now db uid
                     reason feedback))))
  /\ (forall uid name,
        Forall Shape.ofPlan
          (subscriptions
             (snd (SubscriptionService.incrementFeatureUsage db uid name))))
  /\ (forall event,
        Forall Shape.ofPlan
          (subscriptions
             (snd (SubscriptionService.handleWebhookEvent db event))))
  /\ (forall s, In s (subscriptions db) ->
        Forall Shape.ofPlan
          (snd (Subscription.resetMonthlyUsage s (subscriptions db)))
        /\ Forall Shape.ofPlan
             (snd (Subscription.resetWeeklyUsage s (subscriptions db)))).
Proof.
  assert (Hact : forall sid ref,
            Forall Shape.ofPlan
              (subscriptions
                 (snd (SubscriptionService.activateSubscription db sid ref)))).
  { intros sid ref.
    destruct (activate_effect db sid ref)
      as [->|(s & s' & Hfind & Hid & -> & ->)]; [assumption|].
    apply (shape_write _ s); try reflexivity; [assumption|].
    now apply (findOne_matches _ _ _ Hfind). }
  split; [exact Hact|]. split; [|split; [|split]].
  - intros now uid reason feedback.
    destruct (cancel_effect provider now db uid reason feedback)
      as [->|(s & s' & Hfind & -> & ->)]; [assumption|].
    apply (shape_write _ s); try reflexivity; [assumption|].
    now apply (findOne_matches _ _ _ Hfind).
  - intros uid name.
    destruct (increment_effect db uid name)
      as [->|[(s & f' & Hfind & Hb & ->)|(user & g & Hu & ->)]];
      [assumption| |assumption].
    apply (shape_write _ s); [assumption| |reflexivity|].
    + now apply (findOne_matches _ _ _ Hfind).
    + now apply (zeroUsed_after_bump _ _ name).
  - intros event. destruct (webhook_effect db event) as [->| ->];
      [assumption|apply Hact].
  - intros s Hin. split;
      (apply (shape_write _ s); [assumption|assumption|reflexivity|reflexivity]).
Qed.

(** With unique [_id]s, a database in which every user with the role pro
    has an active subscription stays so under activation, cancellation, the
    usage increment and the handling of a provider event. *)
Theorem operations_keep_pro_users_backed (db : Db)
    (Hids : List.NoDup (map _id (subscriptions db)))
    (Hbacked : Keys.proBacked db) :
  (forall sid ref,
     Keys.proBacked
       (snd (SubscriptionService.activateSubscription db sid ref)))
  /\ (forall now uid reason feedback,
        Keys.proBacked
          (snd (SubscriptionService.cancelSubscription provider now db uid
                  reason feedback)))
  /\ (forall uid name,
        Keys.proBacked
          (snd (SubscriptionService.incrementFeatureUsage db uid name)))
  /\ (forall event,
        Keys.proBacked
          (snd (SubscriptionService.handleWebhookEvent db event))).
Proof.
  assert (Hact : forall sid ref,
            Keys.proBacked
              (snd (SubscriptionService.activateSubscription db sid ref))).
  { intros sid ref.
    destruct (activate_effect db sid ref)
      as [->|(s & s' & Hfind & Hid & Hs' & ->)]; [assumption|].
    assert (Hfirst : Subscription.findById (_id s')
                       (subscriptions db) = Some s)
      by (subst s'; simpl; now rewrite Hid).
    intros uid u Hu Hrole. cbn [subscriptions users] in *.
    destruct (decide (uid = userId s)) as [->|Hne].
    - exists s'. split; [apply In_write|]. now subst s'.
    - assert (Hu' : users db !! uid = Some u).
      { destruct (users db !! userId s);
          [now rewrite lookup_insert_ne in Hu|assumption]. }
      destruct (Hbacked uid u Hu' Hrole) as (t & Hin & Ht & Hst).
      exists t. split; [|now split].
      apply (In_write_other _ s); [assumption|assumption|congruence]. }
  split; [exact Hact|]. split; [|split].
  - intros now uid reason feedback.
    destruct (cancel_effect provider now db uid reason feedback)
      as [->|(s & s' & Hfind & Hs' & ->)]; [assumption|].
    pose proof (findOne_matches _ _ _ Hfind) as [Hin Hq].
    apply andb_true_iff in Hq as [Hq _]. apply String.eqb_eq in Hq.
    assert (Hfirst : Subscription.findById (_id s')
                       (subscriptions db) = Some s)
      by (subst s'; exact (findById_unique _ s Hids Hin)).
    intros uid' u Hu Hrole. cbn [subscriptions users] in *.
    destruct (decide (uid' = uid)) as [->|Hne].
    + exfalso. destruct (users db !! uid) eqn:Huid.
      * rewrite lookup_insert_eq in Hu. injection Hu as <-. discriminate.
      * congruence.
    + assert (Hu' : users db !! uid' = Some u).
      { destruct (users db !! uid);
          [now rewrite lookup_insert_ne in Hu|assumption]. }
      destruct (Hbacked uid' u Hu' Hrole) as (t & Hint & Ht & Hst).
      exists t. split; [|now split].
      apply (In_write_other _ s); [assumption|assumption|congruence].
  - intros uid name.
    destruct (increment_effect db uid name)
      as [->|[(s & f' & Hfind & Hb & ->)|(user & g & Huser & ->)]];
      [assumption| |].
    + pose proof (findOne_matches _ _ _ Hfind) as [Hin _].
      assert (Hfirst : Subscription.findById (_id (set_features f' s))
                         (subscriptions db) = Some s)
        by exact (findById_unique _ s Hids Hin).
      intros uid' u Hu Hrole. cbn [subscriptions users] in *.
      destruct (Hbacked uid' u Hu Hrole) as (t & Hint & Ht & Hst).
      destruct (decide (_id t = _id s)) as [Heq|Hne].
      * assert (t = s) as -> by exact (NoDup_map_inj _ _ _ _ Hids Hint Hin Heq).
        exists (set_features f' s). split; [apply In_write|now split].
      * exists t. split; [|now split].
        apply (In_write_other _ s); [assumption|assumption|congruence].
    + intros uid' u Hu Hrole. cbn [subscriptions users] in *.
      destruct (decide (uid' = uid)) as [->|Hne].
      * rewrite lookup_insert_eq in Hu. injection Hu as <-.
        now apply (Hbacked uid user).
      * rewrite lookup_insert_ne in Hu by congruence.
        now apply (Hbacked uid' u).
  - intros event. destruct (webhook_effect db event) as [->| ->];
      [assumption|apply Hact].
Qed.

End Invariants.

Section InvariantExamples.

Lemma sample_ids_unique : List.NoDup (map _id [Sample.proActive]).
Proof. constructor; [simpl; tauto | constructor]. Qed.

Lemma operations_keep_documents_and_owners_witness :
  let db := Sample.dbOf [Sample.proActive] (Sample.userWith role_pro 0 0) in
  Keys.kept db
    (snd (SubscriptionService.cancelSubscription Sample.providerOk
            Sample.mar10 db "user1" None None)).
Proof.
  intros db.
  apply (operations_keep_documents_and_owners Sample.providerOk db
           sample_ids_unique).
Defined.

Lemma operations_keep_the_plan_shape_witness :
  let db := Sample.dbOf [Sample.proActive] (Sample.userWith role_pro 0 0) in
  Forall Shape.ofPlan
    (subscriptions
       (snd (SubscriptionService.incrementFeatureUsage db "user1"
               "jobMatches"))).
Proof.
  intros db.
  apply (operations_keep_the_plan_shape Sample.providerOk db).
  constructor; [reflexivity | constructor].
Defined.

Lemma operations_keep_pro_users_backed_witness :
  let db := Sample.dbOf [Sample.proActive] (Sample.userWith role_pro 0 0) in
  Keys.proBacked
    (snd (SubscriptionService.cancelSubscription Sample.providerOk
            Sample.mar10 db "user1" None None)).
Proof.
  intros db.
  apply (operations_keep_pro_users_backed Sample.providerOk db
           sample_ids_unique).
  intros uid u Hu _. exists Sample.proActive.
  change (({[ "user1" := Sample.userWith role_pro 0 0 ]} : gmap string IUser)
            !! uid = Some u) in Hu.
  apply lookup_singleton_Some in Hu as [<- _].
  split; [now left | split; reflexivity].
Defined.

End InvariantExamples.

(** ** Activation, then cancellation *)

Section ActivateThenCancel.

Variable provider : string -> result Exception unit.

Implicit Types (db : Db) (s : ISubscription).


End ActivateThenCancel.

Section ActivateThenCancelExample.


End ActivateThenCancelExample.

(** ** Creating a subscription *)

Section Creating.

Variable createStripeCustomer : string -> result Exception string.
Variable createStripeCheckoutSession :
  string -> string -> string -> string ->
  SubscriptionService.CheckoutMetadata ->
  result Exception SubscriptionService.CheckoutSession.
Variable env : string -> option string.
Variable newId : string.
Variable zone : Date -> Date.

Implicit Types (db : Db) (s : ISubscription) (col : list ISubscription).

Lemma find_app_last (q : ISubscription -> bool) col x :
  (forall t, In t col -> q t = false) -> q x = true ->
  Subscription.findOne q (col ++ [x])%list = Some x.
Proof.
  unfold Subscription.findOne. intros Hcol Hx.
  induction col as [|d rest IH]; simpl; [now rewrite Hx|].
  rewrite (Hcol d (or_introl eq_refl)). apply IH.
  intros t Ht. apply Hcol. now right.
Qed.

Lemma write_app_last col x x' :
  (forall t, In t col -> _id t <> _id x') -> _id x = _id x' ->
  Subscription.write x' (col ++ [x])%list = (col ++ [x'])%list.
Proof.
  intros Hcol Hid. induction col as [|d rest IH]; simpl.
  - now rewrite Hid, String.eqb_refl.
  - destruct (String.eqb_spec (_id d) (_id x')) as [Heq|_].
    + now destruct (Hcol d (or_introl eq_refl)).
    + f_equal. apply IH. intros t Ht. apply Hcol. now right.
Qed.

Lemma no_document_of col uid id :
  existsb (fun x => String.eqb (userId x) uid || String.eqb (_id x) id) col
  = false ->
  forall t, In t col -> userId t <> uid /\ _id t <> id.
Proof.
  intros H t Hin.
  destruct (String.eqb_spec (userId t) uid) as [Hu|Hu];
    destruct (String.eqb_spec (_id t) id) as [Hi|Hi]; try (now split);
    exfalso;
    (assert (Hex : existsb
                     (fun x => String.eqb (userId x) uid
                               || String.eqb (_id x) id) col = true);
     [ apply existsb_exists; exists t; split; [assumption|];
       rewrite ?Hu, ?Hi, ?String.eqb_refl; auto using orb_true_r
     | congruence ]).
Qed.

(** [createSubscription] refuses a user who is not stored (404) and a user
    whose subscription is active (409) without writing anything. For a user
    whose stored subscription is not active (cancelled, or pending from an
    earlier attempt) the insertion of the new document is rejected by the
    unique [userId] and the call fails on the duplicate key, the collection
    unchanged: [createSubscription] never replaces a subscription. *)
Theorem createSubscription_refusals
    (now : Date) (db : Db) (uid : string)
    (paid : SubscriptionService.PaidPlan) (billingCycle : BillingCycle) :
  (users db !! uid = None ->
     SubscriptionService.createSubscription createStripeCustomer
    createStripeCheckoutSession env newId zone now db uid paid billingCycle
     = (Err (SubscriptionService.Thrown
               (Api (ApiError.notFound "User not found"))), db))
  /\ (forall user existing,
        users db !! uid = Some user ->
        Subscription.findOne (SubscriptionService.ofUser uid)
          (subscriptions db) = Some existing ->
        status existing = st_active ->
        SubscriptionService.createSubscription createStripeCustomer
          createStripeCheckoutSession env newId zone now db uid paid
          billingCycle
        = (Err (SubscriptionService.Thrown
                  (Api (ApiError.conflict
                          "User already has an active subscription"))), db))
  /\ (forall user existing cid,
        users db !! uid = Some user ->
        Subscription.findOne (SubscriptionService.ofUser uid)
          (subscriptions db) = Some existing ->
        status existing <> st_active ->
        us_stripeCustomerId (subscription user) = Some cid -> cid <> "" ->
        SubscriptionService.createSubscription createStripeCustomer
          createStripeCheckoutSession env newId zone now db uid paid
          billingCycle
        = (Err SubscriptionService.DuplicateKey, db)).
Proof.
  unfold SubscriptionService.createSubscription.
  split; [|split].
  - now intros ->.
  - intros user existing -> -> ->. reflexivity.
  - intros user existing cid -> Hfind Hst Hcid Hne. rewrite Hfind.
    destruct (Status_eqb (status existing) st_active) eqn:Hact.
    { now apply Status_eqb_eq in Hact. }
    rewrite Hcid.
    destruct cid as [|c cid]; [congruence|].
    unfold Subscription.insert.
    pose proof (findOne_matches _ _ _ Hfind) as [Hin Hq].
    assert (Hex : existsb
                    (fun x => String.eqb (userId x) uid
                              || String.eqb (_id x) newId)
                    (subscriptions db) = true).
    { apply existsb_exists. exists existing. split; [assumption|].
      unfold SubscriptionService.ofUser in Hq. now rewrite Hq. }
    cbn [Subscription.preSave Subscription.created Subscription.isModified_plan
         Subscription.this set_features userId _id plan].
    now rewrite Hex.
Qed.

(** A first subscription: the user has no customer id yet and no stored
    document has the user or the new [_id]. When the provider creates the
    customer but the price id of the plan is not configured, the call fails
    with the internal error (500) after its writes: the customer id stays on
    the user and a pending subscription stays in the collection. *)
Theorem createSubscription_fails_after_writing
    (now : Date) (db : Db) (uid cid : string) (user : IUser)
    (paid : SubscriptionService.PaidPlan) (billingCycle : BillingCycle)
    (Huser : users db !! uid = Some user)
    (Hfirst : us_stripeCustomerId (subscription user) = None)
    (Hfresh : existsb (fun x => String.eqb (userId x) uid
                                || String.eqb (_id x) newId)
                (subscriptions db) = false)
    (Hcustomer : createStripeCustomer uid = Ok cid)
    (Hprice : env (SubscriptionService.priceIdKey paid billingCycle) = None) :
  SubscriptionService.createSubscription createStripeCustomer
    createStripeCheckoutSession env newId zone now db uid paid billingCycle
  = (Err (SubscriptionService.Thrown
            (Api (ApiError.internal "Stripe price ID not configured"))),
     mkDb (subscriptions db
             ++ [Created.pendingDoc newId zone now uid cid paid billingCycle
                   None])%list
       (<[ uid := Created.withCustomer user cid ]> (users db))).
Proof.
  pose proof (no_document_of _ _ _ Hfresh) as Hno.
  unfold SubscriptionService.createSubscription.
  rewrite Huser.
  rewrite (findOne_no_match (SubscriptionService.ofUser uid)).
  2: { intros t Ht. unfold SubscriptionService.ofUser.
       apply String.eqb_neq. now apply Hno. }
  rewrite Hfirst, Hcustomer. unfold Subscription.insert.
  cbn [Subscription.preSave Subscription.created Subscription.isModified_plan
       Subscription.this set_features userId _id plan subscriptions users].
  rewrite Hfresh, Hprice. reflexivity.
Qed.

(** A first subscription that goes through: the call returns the stored
    document, pending, owned by the user, with the price of the table, the
    end date of [calculateEndDate], the provider's ids and the features of
    the plan's template; the customer id is saved on the user. When the
    provider then reports the checkout as completed, the handler activates
    that document: the user has the role pro, and the check grants unlimited
    resume analyses. *)
Theorem createSubscription_then_checkout
    (now : Date) (db : Db) (uid cid priceId ref : string) (user : IUser)
    (paid : SubscriptionService.PaidPlan) (billingCycle : BillingCycle)
    (session : SubscriptionService.CheckoutSession) (eventId : string)
    (Huser : users db !! uid = Some user)
    (Hfirst : us_stripeCustomerId (subscription user) = None)
    (Hfresh : existsb (fun x => String.eqb (userId x) uid
                                || String.eqb (_id x) newId)
                (subscriptions db) = false)
    (Hcustomer : createStripeCustomer uid = Ok cid)
    (Hprice : env (SubscriptionService.priceIdKey paid billingCycle)
              = Some priceId)
    (Hconfigured : priceId <> "")
    (Hsession :
       createStripeCheckoutSession cid priceId
         (SubscriptionService.clientUrl env
          ++ "/subscription/success?session_id={CHECKOUT_SESSION_ID}")
         (SubscriptionService.clientUrl env ++ "/subscription/cancel")
         (SubscriptionService.mkMetadata newId uid paid) = Ok session) :
  let sub := Created.pendingDoc newId zone now uid cid paid billingCycle
               (SubscriptionService.session_subscription session) in
  let db1 := mkDb (subscriptions db ++ [sub])%list
               (<[ uid := Created.withCustomer user cid ]> (users db)) in
  let db2 := snd (SubscriptionService.handleWebhookEvent db1
                    (mkEvent "checkout.session.completed" newId ref eventId)) in
  (exists url,
     SubscriptionService.createSubscription createStripeCustomer
       createStripeCheckoutSession env newId zone now db uid paid billingCycle
     = (Ok (sub, url), db1))
  /\ Shape.ofPlan sub
  /\ (exists active,
        Subscription.findOne (SubscriptionService.ofUser uid)
          (subscriptions db2) = Some active
        /\ status active = st_active /\ features active = features sub
        /\ stripeSubscriptionId (paymentDetails active) = Some ref)
  /\ (exists u2,
        users db2 !! uid = Some u2 /\ role u2 = role_pro
        /\ us_stripeCustomerId (subscription u2) = Some cid
        /\ usage u2 = usage user)
  /\ SubscriptionService.checkFeatureAccess db2 uid "resumeAnalysis"
     = Ok (mkAccess true (Some (Js.Number (-1))) (Some 0%N) None).
Proof.
  intros sub db1 db2.
  pose proof (no_document_of _ _ _ Hfresh) as Hno.
  assert (Hcreate : exists url,
            SubscriptionService.createSubscription createStripeCustomer
              createStripeCheckoutSession env newId zone now db uid paid
              billingCycle
            = (Ok (sub, url), db1)).
  { unfold SubscriptionService.createSubscription.
    rewrite Huser.
    rewrite (findOne_no_match (SubscriptionService.ofUser uid)).
    2: { intros t Ht. unfold SubscriptionService.ofUser.
         apply String.eqb_neq. now apply Hno. }
    rewrite Hfirst, Hcustomer. unfold Subscription.insert.
    cbn [Subscription.preSave Subscription.created
         Subscription.isModified_plan Subscription.this set_features userId
         _id plan subscriptions users].
    rewrite Hfresh, Hprice.
    destruct priceId as [|c rest]; [congruence|].
    simpl (_id (set_features _ _)). rewrite Hsession.
    unfold Subscription.save. rewrite preSave_loaded.
    rewrite write_app_last; [eexists; reflexivity| |reflexivity].
    intros t Ht. now apply Hno. }
  split; [exact Hcreate|]. split; [now destruct paid|].
  assert (Hfound : Subscription.findById newId (subscriptions db1) = Some sub).
  { apply find_app_last; [|apply String.eqb_refl].
    intros t Ht. apply String.eqb_neq. now apply Hno. }
  destruct (activateSubscription_found db1 newId ref sub Hfound)
    as (active & users2 & Hact & Hactive & Hsome & _).
  assert (Hdb2 : db2 = mkDb (Subscription.write active (subscriptions db1))
                         users2).
  { unfold db2, SubscriptionService.handleWebhookEvent. cbn [ev_type].
    cbn [String.eqb Ascii.eqb Bool.eqb andb ev_metadata_subscriptionId
         ev_subscription].
    now rewrite Hact. }
  assert (Hcol2 : Subscription.write active (subscriptions db1)
                  = (subscriptions db ++ [active])%list).
  { apply write_app_last; [|now subst active].
    intros t Ht. subst active. simpl. now apply Hno. }
  assert (Hfind2 : Subscription.findOne (SubscriptionService.ofUser uid)
                     (subscriptions db2) = Some active).
  { rewrite Hdb2. cbn [subscriptions]. rewrite Hcol2.
    apply find_app_last.
    - intros t Ht. unfold SubscriptionService.ofUser.
      apply String.eqb_neq. now apply Hno.
    - subst active. unfold SubscriptionService.ofUser. simpl.
      apply String.eqb_refl. }
  rewrite (Hsome (Created.withCustomer user cid)) in Hdb2
    by (cbn [userId sub Created.pendingDoc]; apply lookup_insert_eq).
  split; [|split].
  - exists active. split; [assumption|]. now subst active.
  - rewrite Hdb2. cbn [users]. eexists. split; [apply lookup_insert_eq|].
    repeat split.
  - unfold SubscriptionService.checkFeatureAccess. rewrite Hfind2.
    subst active. now destruct paid.
Qed.

End Creating.

Section CreatingExamples.

Lemma createSubscription_refusals_witness :
  SubscriptionService.createSubscription Sample.customerOk Sample.checkoutOk
    Sample.envProMonthly "sub9" Sample.utc Sample.mar10
    (Sample.dbOf [] Sample.newUser) "nobody"
    SubscriptionService.paid_pro monthly
  = (Err (SubscriptionService.Thrown
            (Api (ApiError.notFound "User not found"))),
     Sample.dbOf [] Sample.newUser)
  /\ SubscriptionService.createSubscription Sample.customerOk
       Sample.checkoutOk Sample.envProMonthly "sub9" Sample.utc Sample.mar10
       (Sample.dbOf [Sample.proActive] (Sample.userWith role_pro 0 0)) "user1"
       SubscriptionService.paid_enterprise monthly
     = (Err (SubscriptionService.Thrown
               (Api (ApiError.conflict
                       "User already has an active subscription"))),
        Sample.dbOf [Sample.proActive] (Sample.userWith role_pro 0 0))
  /\ SubscriptionService.createSubscription Sample.customerOk
       Sample.checkoutOk Sample.envProMonthly "sub9" Sample.utc Sample.mar10
       (Sample.dbOf [Sample.proPending] (Sample.userWith role_free 0 0))
       "user1" SubscriptionService.paid_pro monthly
     = (Err SubscriptionService.DuplicateKey,
        Sample.dbOf [Sample.proPending] (Sample.userWith role_free 0 0)).
Proof.
  split; [|split].
  - apply (createSubscription_refusals Sample.customerOk Sample.checkoutOk
             Sample.envProMonthly "sub9" Sample.utc). reflexivity.
  - apply (createSubscription_refusals Sample.customerOk Sample.checkoutOk
             Sample.envProMonthly "sub9" Sample.utc Sample.mar10 _ "user1" _ _)
      with (user := Sample.userWith role_pro 0 0)
           (existing := Sample.proActive); reflexivity.
  - apply (createSubscription_refusals Sample.customerOk Sample.checkoutOk
             Sample.envProMonthly "sub9" Sample.utc Sample.mar10 _ "user1" _ _)
      with (user := Sample.userWith role_free 0 0)
           (existing := Sample.proPending) (cid := "cus_1");
      try reflexivity; discriminate.
Defined.

Lemma createSubscription_fails_after_writing_witness :
  SubscriptionService.createSubscription Sample.customerOk Sample.checkoutOk
    (fun _ => None) "sub9" Sample.utc Sample.mar10
    (Sample.dbOf [] Sample.newUser)
    "user1" SubscriptionService.paid_pro monthly
  = (Err (SubscriptionService.Thrown
            (Api (ApiError.internal "Stripe price ID not configured"))),
     mkDb [Created.pendingDoc "sub9" Sample.utc Sample.mar10 "user1" "cus_9"
             SubscriptionService.paid_pro monthly None]
       (<[ "user1" := Created.withCustomer Sample.newUser "cus_9" ]>
          (users (Sample.dbOf [] Sample.newUser)))).
Proof.
  apply (createSubscription_fails_after_writing Sample.customerOk
           Sample.checkoutOk (fun _ => None) "sub9" Sample.utc Sample.mar10
           (Sample.dbOf [] Sample.newUser) "user1" "cus_9" Sample.newUser
           SubscriptionService.paid_pro monthly); reflexivity.
Defined.

Lemma createSubscription_then_checkout_witness :
  let db := Sample.dbOf [] Sample.newUser in
  let sub := Created.pendingDoc "sub9" Sample.utc Sample.mar10 "user1" "cus_9"
               SubscriptionService.paid_pro monthly None in
  let db1 := mkDb [sub]
               (<[ "user1" := Created.withCustomer Sample.newUser "cus_9" ]>
                  (users db)) in
  let db2 := snd (SubscriptionService.handleWebhookEvent db1
                    (mkEvent "checkout.session.completed" "sub9"
                       "sub_stripe_9" "evt_9")) in
  (exists url,
     SubscriptionService.createSubscription Sample.customerOk
       Sample.checkoutOk Sample.envProMonthly "sub9" Sample.utc Sample.mar10
       db "user1"
       SubscriptionService.paid_pro monthly = (Ok (sub, url), db1))
  /\ SubscriptionService.checkFeatureAccess db2 "user1" "resumeAnalysis"
     = Ok (mkAccess true (Some (Js.Number (-1))) (Some 0%N) None).
Proof.
  intros db sub db1 db2.
  destruct (createSubscription_then_checkout Sample.customerOk
              Sample.checkoutOk Sample.envProMonthly "sub9" Sample.utc
              Sample.mar10 db
              "user1" "cus_9" "price_1" "sub_stripe_9" Sample.newUser
              SubscriptionService.paid_pro monthly
              (SubscriptionService.mkSession
                 (Some "https://checkout.example/c1") None) "evt_9")
    as (Hcreate & _ & _ & _ & Hcheck); try reflexivity; [discriminate|].
  split; [exact Hcreate | exact Hcheck].
Defined.

End CreatingExamples.

(** ** The end of a billing period *)

Section EndDate.

Implicit Types (now : Date) (zone : Date -> Date).

Lemma daysInMonth_range y m : (28 <= JsDate.daysInMonth y m <= 31)%Z.
Proof.
  unfold JsDate.daysInMonth.
  repeat match goal with
  | |- context [if ?b then _ else _] => destruct b
  end; lia.
Qed.

(** The month after month [m] of year [y]. *)
Lemma next_month (y m : Z) :
  (0 <= m <= 11)%Z ->
  (0 <= (m + 1) mod 12 <= 11)%Z
  /\ (12 * (y + (m + 1) / 12 - y) + (m + 1) mod 12 = m + 1)%Z.
Proof. intros Hm. Z.div_mod_to_equations. lia. Qed.

(** For a valid [now], in a zone that has the local time asked for (no
    transition skips it), the end of a monthly period is a valid date at
    the same time of day, one or two calendar months later. A day of the
    month up to 28 is kept, one month later; a day that the next month does
    not have runs over into the month after it, where it lands on one of
    the first three days: the end date is not clamped to the end of the
    next month. *)
Theorem calculateEndDate_monthly zone now (Hvalid : JsDate.valid now)
    (Hzone : zone (JsDate.monthSet (getMonth now + 1) now)
             = JsDate.monthSet (getMonth now + 1) now) :
  let e := SubscriptionService.calculateEndDate zone now monthly in
  JsDate.valid e
  /\ msOfDay e = msOfDay now
  /\ (1 <= User.monthDiff e now <= 2)%Z
  /\ ((getDate now <= 28)%Z ->
      User.monthDiff e now = 1%Z /\ getDate e = getDate now)
  /\ (User.monthDiff e now = 1%Z -> getDate e = getDate now)
  /\ (User.monthDiff e now = 2%Z -> (1 <= getDate e <= 3)%Z).
Proof.
  unfold SubscriptionService.calculateEndDate, JsDate.setMonth.
  rewrite Hzone. clear Hzone.
  destruct now as [y m d ms]. destruct Hvalid as [Hm Hd].
  cbn [getFullYear getMonth getDate] in Hm, Hd.
  unfold JsDate.monthSet, JsDate.make, JsDate.valid, User.monthDiff.
  cbn [getFullYear getMonth getDate msOfDay].
  destruct (next_month (y + (m + 1) / 12) ((m + 1) mod 12)) as [Hm2 Hrel2].
  { Z.div_mod_to_equations. lia. }
  assert (Hm1 : (0 <= (m + 1) mod 12 <= 11)%Z)
    by (Z.div_mod_to_equations; lia).
  assert (Hrel1 : (12 * (y + (m + 1) / 12 - y) + (m + 1) mod 12 = m + 1)%Z)
    by (Z.div_mod_to_equations; lia).
  set (y1 := (y + (m + 1) / 12)%Z) in *. set (m1 := ((m + 1) mod 12)%Z) in *.
  set (y2 := (y1 + (m1 + 1) / 12)%Z) in *.
  set (m2 := ((m1 + 1) mod 12)%Z) in *.
  pose proof (daysInMonth_range y m) as Hr.
  pose proof (daysInMonth_range y1 m1) as Hr1.
  pose proof (daysInMonth_range y2 m2) as Hr2.
  destruct (Z.leb_spec d (JsDate.daysInMonth y1 m1)) as [Hfits|Hover];
    cbn [getFullYear getMonth getDate msOfDay]; repeat split; lia.
Qed.

Lemma daysInMonth_any_year (y y' m : Z) :
  m <> 1%Z -> JsDate.daysInMonth y m = JsDate.daysInMonth y' m.
Proof.
  intros Hm. unfold JsDate.daysInMonth.
  now destruct (Z.eqb_spec m 1).
Qed.

Lemma leap_then_next_not (y : Z) :
  JsDate.isLeapYear y = true -> JsDate.isLeapYear (y + 1) = false.
Proof.
  unfold JsDate.isLeapYear. intros H.
  assert (Hy : (y mod 4 = 0)%Z).
  { apply orb_true_iff in H as [H|H].
    - apply andb_true_iff in H as [H _]. now apply Z.eqb_eq in H.
    - apply Z.eqb_eq in H. Z.div_mod_to_equations. lia. }
  replace ((y + 1) mod 4 =? 0)%Z with false
    by (symmetry; apply Z.eqb_neq; Z.div_mod_to_equations; lia).
  replace ((y + 1) mod 400 =? 0)%Z with false
    by (symmetry; apply Z.eqb_neq; Z.div_mod_to_equations; lia).
  reflexivity.
Qed.

(** For a valid [now], in a zone that has the local time asked for (no
    transition skips it), the end of a yearly period is the same day of the
    same month one year later, at the same time of day, except from the
    29th of February, which leads to the 1st of March. *)
Theorem calculateEndDate_yearly zone now (Hvalid : JsDate.valid now)
    (Hzone : zone (JsDate.yearSet (getFullYear now + 1) now)
             = JsDate.yearSet (getFullYear now + 1) now) :
  let e := SubscriptionService.calculateEndDate zone now yearly in
  JsDate.valid e
  /\ msOfDay e = msOfDay now
  /\ getFullYear e = (getFullYear now + 1)%Z
  /\ (getMonth now = 1%Z -> getDate now = 29%Z ->
      getMonth e = 2%Z /\ getDate e = 1%Z)
  /\ ((getMonth now <> 1%Z \/ getDate now <> 29%Z) ->
      getMonth e = getMonth now /\ getDate e = getDate now).
Proof.
  unfold SubscriptionService.calculateEndDate, JsDate.setFullYear.
  rewrite Hzone. clear Hzone.
  destruct now as [y m d ms]. destruct Hvalid as [Hm Hd].
  cbn [getFullYear getMonth getDate] in Hm, Hd.
  unfold JsDate.yearSet, JsDate.make, JsDate.valid.
  cbn [getFullYear getMonth getDate msOfDay].
  rewrite (Z.div_small m 12), (Z.mod_small m 12), Z.add_0_r by lia.
  destruct (Z.eq_dec m 1%Z) as [->|Hother].
  - change ((1 + 1) / 12)%Z with 0%Z. change ((1 + 1) mod 12)%Z with 2%Z.
    rewrite Z.add_0_r.
    unfold JsDate.daysInMonth in *. cbn [Z.eqb Pos.eqb orb] in *.
    destruct (JsDate.isLeapYear y) eqn:Hleap.
    + rewrite (leap_then_next_not y Hleap).
      destruct (Z.leb_spec d 28);
        cbn [getFullYear getMonth getDate msOfDay Z.eqb Pos.eqb orb];
        rewrite ?(leap_then_next_not y Hleap); repeat split; lia.
    + destruct (JsDate.isLeapYear (y + 1)) eqn:Hnext;
        match goal with
        | |- context [(d <=? ?b)%Z] => destruct (Z.leb_spec d b)
        end;
        cbn [getFullYear getMonth getDate msOfDay Z.eqb Pos.eqb orb];
        rewrite ?Hnext; repeat split; lia.
  - rewrite (daysInMonth_any_year (y + 1) y m Hother).
    destruct (Z.leb_spec d (JsDate.daysInMonth y m)); [|lia].
    cbn [getFullYear getMonth getDate msOfDay].
    rewrite (daysInMonth_any_year (y + 1) y m Hother).
    repeat split; lia.
Qed.

(** Where the zone skips the local time asked for, the time of day
    moves: in [Sample.newYork] a period that starts at 2:30 and would end
    on 10 March 2024 at 2:30 ends there at 3:30. *)
Lemma calculateEndDate_in_a_gap :
  SubscriptionService.calculateEndDate Sample.newYork
    (mkDate 2023 2 10 9000000) yearly = mkDate 2024 2 10 12600000
  /\ SubscriptionService.calculateEndDate Sample.newYork
       (mkDate 2024 1 10 9000000) monthly = mkDate 2024 2 10 12600000.
Proof. split; reflexivity. Qed.

Lemma calculateEndDate_monthly_witness :
  let e := SubscriptionService.calculateEndDate Sample.newYork
             (mkDate 2024 0 31 0) monthly in
  JsDate.valid e /\ e = mkDate 2024 2 2 0.
Proof.
  split; [|reflexivity].
  apply (calculateEndDate_monthly Sample.newYork (mkDate 2024 0 31 0));
    [|reflexivity].
  unfold JsDate.valid. cbn [getFullYear getMonth getDate].
  change (JsDate.daysInMonth 2024 0) with 31%Z. lia.
Defined.

Lemma calculateEndDate_yearly_witness :
  let e := SubscriptionService.calculateEndDate Sample.newYork
             (mkDate 2024 1 29 0) yearly in
  JsDate.valid e /\ e = mkDate 2025 2 1 0.
Proof.
  split; [|reflexivity].
  apply (calculateEndDate_yearly Sample.newYork (mkDate 2024 1 29 0));
    [|reflexivity].
  unfold JsDate.valid. cbn [getFullYear getMonth getDate].
  change (JsDate.daysInMonth 2024 1) with 29%Z. lia.
Defined.

End EndDate.

(** ** Provider events, delivered again *)

Section Redelivery.

Implicit Types (db : Db) (s : ISubscription).

Lemma activate_again db sid ref :
  SubscriptionService.activateSubscription
    (snd (SubscriptionService.activateSubscription db sid ref)) sid ref
  = SubscriptionService.activateSubscription db sid ref.
Proof.
  destruct (Subscription.findById sid (subscriptions db)) as [s|] eqn:Hfind.
  - pose proof (findById_id _ _ _ Hfind) as Hid.
    destruct (activateSubscription_found db sid ref s Hfind)
      as (s1 & users1 & Hact & Hs1 & Hsome & Hnone).
    rewrite Hact. cbn [snd].
    assert (Hfind1 : Subscription.findById sid
                       (Subscription.write s1 (subscriptions db)) = Some s1).
    { rewrite <- Hid. apply findById_write; [now rewrite Hid|now subst s1]. }
    destruct (activateSubscription_found
                (mkDb (Subscription.write s1 (subscriptions db)) users1)
                sid ref s1 Hfind1)
      as (s2 & users2 & Hact2 & Hs2 & Hsome2 & Hnone2).
    rewrite Hact2. cbn [subscriptions users] in *.
    assert (s2 = s1) as -> by (subst s2 s1; reflexivity).
    rewrite write_write. do 2 f_equal.
    assert (Huid : userId s1 = userId s) by now subst s1.
    rewrite Huid in *.
    destruct (users db !! userId s) as [u|] eqn:Hu.
    + rewrite (Hsome u eq_refl) in *.
      rewrite (Hsome2 _ (lookup_insert_eq _ _ _)).
      rewrite insert_insert_eq. now subst s1.
    + rewrite (Hnone eq_refl) in *. now apply Hnone2.
  - rewrite (activateSubscription_missing db sid ref Hfind). cbn [snd].
    apply (activateSubscription_missing db sid ref Hfind).
Qed.

(** An event of any type other than [checkout.session.completed], the
    three named in the handler or not, is answered normally and changes
    nothing. Handling any event a second time, on the database the first
    handling left, gives the same answer and leaves that database as it is:
    a redelivered event does no harm. *)
Theorem handleWebhookEvent_redelivery (db : Db) (event : WebhookEvent) :
  (ev_type event <> "checkout.session.completed" ->
   SubscriptionService.handleWebhookEvent db event = (Ok tt, db))
  /\ SubscriptionService.handleWebhookEvent
       (snd (SubscriptionService.handleWebhookEvent db event)) event
     = SubscriptionService.handleWebhookEvent db event.
Proof.
  unfold SubscriptionService.handleWebhookEvent.
  destruct (String.eqb_spec (ev_type event) "checkout.session.completed")
    as [Htype|Htype].
  - split; [congruence|].
    pose proof (activate_again db (ev_metadata_subscriptionId event)
                  (ev_subscription event)) as Hagain.
    destruct (SubscriptionService.activateSubscription db _ _)
      as [[s1|e] db1]; cbn [snd] in *; now rewrite Hagain.
  - assert (Hnothing :
              (if String.eqb (ev_type event) "invoice.payment_succeeded"
               then (Ok tt, db)
               else if String.eqb (ev_type event) "invoice.payment_failed"
               then (Ok tt, db)
               else if String.eqb (ev_type event)
                         "customer.subscription.deleted"
               then (Ok tt, db)
               else (Ok tt, db))
              = (@Ok Exception unit tt, db)).
    { repeat match goal with
      | |- context [if ?b then _ else _] => destruct b
      end; reflexivity. }
    split; [intros _; exact Hnothing|].
    rewrite Hnothing. cbn [snd]. exact Hnothing.
Qed.

Lemma handleWebhookEvent_redelivery_witness :
  SubscriptionService.handleWebhookEvent
    (Sample.dbOf [Sample.proActive] (Sample.userWith role_pro 0 0))
    (Sample.event "customer.subscription.updated")
  = (Ok tt, Sample.dbOf [Sample.proActive] (Sample.userWith role_pro 0 0)).
Proof.
  destruct (handleWebhookEvent_redelivery
              (Sample.dbOf [Sample.proActive] (Sample.userWith role_pro 0 0))
              (Sample.event "customer.subscription.updated")) as [H _].
  apply H. discriminate.
Defined.

End Redelivery.

(** ** The free tier, with and without a subscription document *)

Section FreeTierAgreement.

Implicit Types (db : Db) (s : ISubscription).

(** A user with fewer than three analyses counted is granted the same
    features whether there is no subscription document or one that holds
    the untouched template of the free plan: for every feature name the two
    checks agree on [hasAccess], and [getSubscriptionDetails] reports the
    same limits and usage for both. *)
Theorem free_fallback_agrees_with_free_template
    (db0 db1 : Db) (uid name : string) (u : IUser) (s : ISubscription)
    (Hnone : Subscription.findOne (SubscriptionService.ofUser uid)
               (subscriptions db0) = None)
    (Huser : users db0 !! uid = Some u)
    (Hcount : (resumeAnalysisCount (usage u) < 3)%N)
    (Hsome : Subscription.findOne (SubscriptionService.ofUser uid)
               (subscriptions db1) = Some s)
    (Htemplate : features s = Subscription.planFeatures plan_free) :
  (exists a0 a1,
     SubscriptionService.checkFeatureAccess db0 uid name = Ok a0
     /\ SubscriptionService.checkFeatureAccess db1 uid name = Ok a1
     /\ hasAccess a0 = hasAccess a1)
  /\ snd (SubscriptionService.getSubscriptionDetails db0 uid)
     = snd (SubscriptionService.getSubscriptionDetails db1 uid).
Proof.
  split.
  2: { unfold SubscriptionService.getSubscriptionDetails.
       now rewrite Hnone, Hsome, Htemplate. }
  unfold SubscriptionService.checkFeatureAccess.
  rewrite Hnone, Hsome, Htemplate, Huser.
  destruct (in_dec String.string_dec name Subscription.featureNames)
    as [Hin|Hnot].
  - simpl in Hin.
    decompose [or] Hin; try contradiction; subst name;
      (eexists _, _; split; [reflexivity|split; [reflexivity|]]); simpl;
      try reflexivity.
    apply Z.ltb_lt. lia.
  - destruct (feature_unknown (Subscription.planFeatures plan_free) name Hnot)
      as [->|[m ->]].
    + eexists _, _. split; [reflexivity|split; [reflexivity|]]. simpl.
      unfold Js.get. rewrite ownProperty_absent
        by (intros Hin; apply Hnot; now apply freeLimits_keys_known).
      destruct (Js.objectPrototype name); simpl; [reflexivity|].
      apply Z.ltb_ge. lia.
    + destruct m; simpl;
        (eexists _, _; split; [reflexivity|split; [reflexivity|]]); simpl;
        unfold Js.get;
        rewrite ownProperty_absent
          by (intros Hin; apply Hnot; now apply freeLimits_keys_known);
        (destruct (Js.objectPrototype name); simpl; [reflexivity|];
         apply Z.ltb_ge; lia).
Qed.

Lemma free_fallback_agrees_with_free_template_witness :
  exists a0 a1,
    SubscriptionService.checkFeatureAccess
      (Sample.dbOf [] (Sample.userWith role_free 2 0)) "user1" "jobMatches"
    = Ok a0
    /\ SubscriptionService.checkFeatureAccess
         (Sample.dbOf [Sample.freeActive] (Sample.userWith role_free 2 0))
         "user1" "jobMatches" = Ok a1
    /\ hasAccess a0 = hasAccess a1.
Proof.
  apply (free_fallback_agrees_with_free_template
           (Sample.dbOf [] (Sample.userWith role_free 2 0))
           (Sample.dbOf [Sample.freeActive] (Sample.userWith role_free 2 0))
           "user1" "jobMatches" (Sample.userWith role_free 2 0)
           Sample.freeActive); reflexivity.
Defined.

End FreeTierAgreement.

(** ** The free resume analyses, as the resume service counts them *)

Section ResumeQuota.

Variable A : Type.
Variable analyse : result Exception A.
Variable findAnalysis : string -> string -> option A.
Variable reanalyse : A -> result Exception A.

Implicit Types (db : Db) (u : IUser).

(** A user without pro access and with at most three analyses counted.
    [uploadAndAnalyze] refuses (403) exactly when three are counted and the
    month has not rolled over, and then writes nothing; it writes nothing
    either when the analysis itself fails. When it succeeds it stores the
    count one higher, or 1 with the reset date [now] after a rollover.
    Whatever happens, the stored count stays at most three and the interview
    count is not touched. *)
Theorem uploadAndAnalyze_free_quota
    (now : Date) (db : Db) (uid : string) (u : IUser)
    (Huser : users db !! uid = Some u)
    (Hfree : User.hasProAccess u = false)
    (Hcount : (resumeAnalysisCount (usage u) <= 3)%N) :
  let r := ResumeService.uploadAndAnalyze A analyse now db uid in
  let rollover := (0 <? User.monthDiff now (lastResetDate (usage u)))%Z in
  ((resumeAnalysisCount (usage u) = 3%N /\ rollover = false) ->
     r = (Err (Api (ApiError.forbidden
                      "Resume analysis limit reached. Upgrade to Pro for unlimited analyses.")),
          db))
  /\ (forall e, analyse = Err e ->
        snd r = db)
  /\ (forall a, analyse = Ok a ->
        (resumeAnalysisCount (usage u) < 3)%N \/ rollover = true ->
        r = (Ok a,
             mkDb (subscriptions db)
               (<[ uid :=
                     mkUser (role u) (subscription u)
                       (if rollover
                        then mkUsage 1 (interviewSessionsCount (usage u)) now
                        else mkUsage (resumeAnalysisCount (usage u) + 1)
                               (interviewSessionsCount (usage u))
                               (lastResetDate (usage u))) ]> (users db))))
  /\ (exists u',
        users (snd r) !! uid = Some u'
        /\ (resumeAnalysisCount (usage u') <= 3)%N
        /\ interviewSessionsCount (usage u')
           = interviewSessionsCount (usage u)
        /\ role u' = role u).
Proof.
  unfold ResumeService.uploadAndAnalyze, User.canUseResumeAnalysis,
    ResumeService.countAnalysis.
  rewrite Huser, Hfree.
  destruct (0 <? User.monthDiff now (lastResetDate (usage u)))%Z eqn:Hroll;
    cbn [usage resumeAnalysisCount interviewSessionsCount lastResetDate
         role subscription].
  - change (Js.plusOne 0) with 1%N. change (0 <? 3)%N with true.
    cbn [negb].
    split; [intros [_ H]; discriminate|].
    split; [intros e ->; reflexivity|].
    split; [intros a -> _; reflexivity|].
    destruct analyse; cbn [snd users].
    + eexists. split; [apply lookup_insert_eq|].
      cbn [usage resumeAnalysisCount interviewSessionsCount role].
      repeat split. lia.
    + exists u. repeat split; assumption.
  - destruct (N.ltb_spec (resumeAnalysisCount (usage u)) 3) as [Hlt|Hge];
      cbn [negb].
    + rewrite plusOne_exact by (unfold Js.MAX_SAFE_INTEGER; lia).
      split; [intros [H _]; lia|].
      split; [intros e ->; reflexivity|].
      split; [intros a -> _; reflexivity|].
      destruct analyse; cbn [snd users].
      * eexists. split; [apply lookup_insert_eq|].
        cbn [usage resumeAnalysisCount interviewSessionsCount role].
        repeat split. lia.
      * exists u. repeat split; assumption.
    + split; [reflexivity|].
      split; [reflexivity|].
      split; [intros a _ [H|H]; [lia|discriminate]|].
      exists u. repeat split; assumption.
Qed.

(** The two resume methods count differently. A pro user's analysis is
    counted by [uploadAndAnalyze], one higher for a count of at most
    [MAX_SAFE_INTEGER], and not by [reanalyzeResume]. A free user
    with three analyses counted in an earlier month is let through by
    [uploadAndAnalyze], which rolls the month over, and refused (403) by
    [reanalyzeResume], which never looks at the reset date. *)
Theorem upload_and_reanalyze_count_differently
    (now : Date) (db : Db) (analysisId uid : string) (u : IUser)
    (existing a : A)
    (Huser : users db !! uid = Some u)
    (Hexisting : findAnalysis analysisId uid = Some existing)
    (Hanalyse : analyse = Ok a)
    (Hreanalyse : reanalyse existing = Ok a) :
  (User.hasProAccess u = true ->
     (exists u',
        users (snd (ResumeService.uploadAndAnalyze A analyse now db uid))
          !! uid = Some u'
        /\ ((resumeAnalysisCount (usage u) <= Js.MAX_SAFE_INTEGER)%N ->
            resumeAnalysisCount (usage u')
            = (resumeAnalysisCount (usage u) + 1)%N))
     /\ ResumeService.reanalyzeResume A findAnalysis reanalyse db
          analysisId uid = (Ok a, db))
  /\ (User.hasProAccess u = false ->
      (3 <= resumeAnalysisCount (usage u))%N ->
      (0 < User.monthDiff now (lastResetDate (usage u)))%Z ->
      fst (ResumeService.uploadAndAnalyze A analyse now db uid) = Ok a
      /\ ResumeService.reanalyzeResume A findAnalysis reanalyse db
           analysisId uid
         = (Err (Api (ApiError.forbidden
                        "Free tier limit reached. Upgrade to Pro for more analyses.")),
            db)).
Proof.
  unfold ResumeService.uploadAndAnalyze, ResumeService.reanalyzeResume,
    User.canUseResumeAnalysis.
  rewrite Huser, Hexisting, Hanalyse, Hreanalyse. split.
  - intros ->. cbn [negb andb snd users]. split; [|reflexivity].
    eexists. split; [apply lookup_insert_eq|].
    intros Hsafe. unfold ResumeService.countAnalysis.
    cbn [usage resumeAnalysisCount]. now apply plusOne_exact.
  - intros -> Hcount Hroll.
    destruct (Z.ltb_spec 0 (User.monthDiff now (lastResetDate (usage u))));
      [|lia].
    destruct (N.leb_spec 3 (resumeAnalysisCount (usage u))); [|lia].
    simpl. split; reflexivity.
Qed.

End ResumeQuota.

Section ResumeQuotaExamples.

Lemma uploadAndAnalyze_free_quota_witness :
  let db := Sample.dbOf [] (Sample.userWith role_free 3 0) in
  exists u',
    users (snd (ResumeService.uploadAndAnalyze unit (Ok tt) Sample.mar10 db
                  "user1")) !! "user1" = Some u'
    /\ (resumeAnalysisCount (usage u') <= 3)%N.
Proof.
  intros db.
  destruct (uploadAndAnalyze_free_quota unit (Ok tt) Sample.mar10 db "user1"
              (Sample.userWith role_free 3 0) eq_refl eq_refl)
    as (_ & _ & _ & u' & Hu & Hc & _).
  - simpl. lia.
  - exists u'. split; assumption.
Defined.

Lemma upload_and_reanalyze_count_differently_witness :
  let db := Sample.dbOf [] (Sample.userWith role_free 3 0) in
  fst (ResumeService.uploadAndAnalyze unit (Ok tt) Sample.mar10 db "user1")
  = Ok tt
  /\ ResumeService.reanalyzeResume unit (fun _ _ => Some tt)
       (fun _ => Ok tt) db "a1" "user1"
     = (Err (Api (ApiError.forbidden
                    "Free tier limit reached. Upgrade to Pro for more analyses.")),
        db).
Proof.
  intros db.
  destruct (upload_and_reanalyze_count_differently unit (Ok tt)
              (fun _ _ => Some tt) (fun _ => Ok tt) Sample.mar10 db "a1"
              "user1" (Sample.userWith role_free 3 0) tt tt
              eq_refl eq_refl eq_refl eq_refl) as [_ H].
  apply H; [reflexivity | discriminate | reflexivity].
Defined.

End ResumeQuotaExamples.

(** ** The free interview session *)

Section InterviewAllowance.

Variable ISession : Type.
Variable generate : bool -> result Exception ISession.

Implicit Types (db : Db) (u : IUser).

(** A user without pro access: any session type but practice is refused
    (403) and so is a practice session once one is counted, both without a
    write. A first practice session is generated with the free question
    count and counted; after it every further [createSession], of any type,
    is refused and writes nothing. No date enters the decision: the free
    session is not given back by a new month. *)
Theorem createSession_free_allowance
    (db : Db) (uid : string) (u : IUser)
    (Huser : users db !! uid = Some u)
    (Hfree : User.hasProAccess u = false) :
  (forall t, t <> practice ->
     InterviewService.createSession ISession generate db uid t
     = (Err (Api (ApiError.forbidden
                    "Pro subscription required for this interview type")),
        db))
  /\ ((1 <= interviewSessionsCount (usage u))%N ->
      InterviewService.createSession ISession generate db uid practice
      = (Err (Api (ApiError.forbidden
                     "Interview limit reached. Upgrade to Pro for unlimited interviews.")),
         db))
  /\ (forall session,
        interviewSessionsCount (usage u) = 0%N ->
        generate false = Ok session ->
        let r := InterviewService.createSession ISession generate db uid
                   practice in
        r = (Ok session,
             mkDb (subscriptions db)
               (<[ uid := InterviewService.countSession u ]> (users db)))
        /\ forall t,
             exists e,
               InterviewService.createSession ISession generate (snd r) uid t
               = (Err (Api (mkApiError e 403)), snd r)).
Proof.
  unfold InterviewService.createSession, User.canUseInterview.
  rewrite Huser, Hfree. split; [|split].
  - intros t Ht. destruct t; [congruence|reflexivity|reflexivity].
  - intros Hc. simpl.
    destruct (N.ltb_spec (interviewSessionsCount (usage u)) 1); [lia|].
    reflexivity.
  - intros session Hc Hgen. rewrite Hc, Hgen. simpl. split; [reflexivity|].
    intros t. rewrite lookup_insert_eq.
    assert (Hfree' : User.hasProAccess (InterviewService.countSession u)
                     = false) by exact Hfree.
    rewrite Hfree'. cbn [InterviewService.countSession usage
                         interviewSessionsCount].
    rewrite Hc. destruct t; simpl; eexists; reflexivity.
Qed.

(** A user with pro access is never refused and never counted. *)
Lemma createSession_pro (db : Db) (uid : string) (u : IUser) (t : SessionType) :
  users db !! uid = Some u ->
  User.hasProAccess u = true ->
  InterviewService.createSession ISession generate db uid t
  = (match generate true with
     | Ok session => Ok session
     | Err e => Err e
     end, db).
Proof.
  intros Huser Hpro.
  unfold InterviewService.createSession, User.canUseInterview.
  rewrite Huser, Hpro. simpl. now destruct (generate true).
Qed.

(** Once a subscription has been activated, its user is never refused an
    interview session and never counted for one: whatever the session type,
    the interview count and the role before the activation, the session is
    generated with the pro question count and the database is left as the
    activation left it. *)
Theorem activated_user_interviews_freely
    (db : Db) (sid ref : string) (s : ISubscription) (u : IUser)
    (t : SessionType)
    (Hfind : Subscription.findById sid (subscriptions db) = Some s)
    (Huser : users db !! userId s = Some u) :
  let db' := snd (SubscriptionService.activateSubscription db sid ref) in
  InterviewService.createSession ISession generate db' (userId s) t
  = (match generate true with
     | Ok session => Ok session
     | Err e => Err e
     end, db').
Proof.
  destruct (activateSubscription_found db sid ref s Hfind)
    as (s1 & users1 & Hact & _ & Hsome & _).
  rewrite Hact. cbn [snd]. rewrite (Hsome u Huser).
  eapply createSession_pro; [apply lookup_insert_eq|reflexivity].
Qed.

End InterviewAllowance.

Section InterviewExamples.

Lemma createSession_free_allowance_witness :
  let db := Sample.dbOf [] (Sample.userWith role_free 0 1) in
  InterviewService.createSession unit (fun _ => Ok tt) db "user1" practice
  = (Err (Api (ApiError.forbidden
                 "Interview limit reached. Upgrade to Pro for unlimited interviews.")),
     db).
Proof.
  intros db.
  destruct (createSession_free_allowance unit (fun _ => Ok tt) db "user1"
              (Sample.userWith role_free 0 1) eq_refl eq_refl)
    as (_ & H & _).
  apply H. discriminate.
Defined.

Lemma activated_user_interviews_freely_witness :
  let db := Sample.dbOf [Sample.proPending] (Sample.userWith role_free 0 1) in
  let db' :=
    snd (SubscriptionService.activateSubscription db "sub1" "sub_stripe_1") in
  InterviewService.createSession unit (fun _ => Ok tt) db' "user1" mock
  = (Ok tt, db').
Proof.
  intros db db'.
  apply (activated_user_interviews_freely unit (fun _ => Ok tt) db "sub1"
           "sub_stripe_1" Sample.proPending (Sample.userWith role_free 0 1)
           mock); reflexivity.
Defined.

End InterviewExamples.

(** ** The service's check and the model's methods *)

Section CheckAndMethods.

(** With a subscription, [checkFeatureAccess] grants access exactly when
    both methods of the model do: [isFeatureAvailable] and
    [checkUsageLimit], for every name, a feature or not. *)
Theorem checkFeatureAccess_is_both_methods
    (db : Db) (uid name : string) (s : ISubscription)
    (Hfind : Subscription.findOne (SubscriptionService.ofUser uid)
               (subscriptions db) = Some s) :
  exists a,
    SubscriptionService.checkFeatureAccess db uid name = Ok a
    /\ hasAccess a
       = Subscription.isFeatureAvailable s name
         && Subscription.checkUsageLimit s name.
Proof.
  unfold SubscriptionService.checkFeatureAccess,
    Subscription.isFeatureAvailable, Subscription.checkUsageLimit,
    Subscription.isWithinLimit.
  rewrite Hfind.
  destruct (Subscription.feature (features s) name) as [[m|w|r|a|b]|[]|];
    cbn [Subscription.isObject Subscription.enabledOf
         Subscription.monthlyLimitOf Subscription.usedOf negb];
    try (eexists; split; reflexivity).
  - destruct (m_enabled m); [|eexists; split; reflexivity].
    destruct (Z.eqb_spec (monthlyLimit m) (-1)); eexists; split;
      reflexivity.
  - destruct (w_enabled w); eexists; split; reflexivity.
  - destruct (r_enabled r); eexists; split; reflexivity.
  - destruct (a_enabled a); eexists; split; reflexivity.
Qed.

Lemma checkFeatureAccess_is_both_methods_witness :
  exists a,
    SubscriptionService.checkFeatureAccess
      (Sample.dbOf [Sample.freeActive] (Sample.userWith role_free 0 0))
      "user1" "jobMatches" = Ok a
    /\ hasAccess a
       = Subscription.isFeatureAvailable Sample.freeActive "jobMatches"
         && Subscription.checkUsageLimit Sample.freeActive "jobMatches".
Proof.
  apply (checkFeatureAccess_is_both_methods
           (Sample.dbOf [Sample.freeActive] (Sample.userWith role_free 0 0))
           "user1" "jobMatches" Sample.freeActive).
  reflexivity.
Defined.

End CheckAndMethods.
